(** * MP3 crawler and downloader (thec.py): a shallow embedding

    Python values are modelled as follows.
    - [str] is a list of Unicode code points ([N]); [bytes] is a list of
      octets ([N] below 256).
    - A function that may raise returns an [outcome].
    - The output directory is a finite map from path to file content.
    - The network, the HTML parser, the URL library and the opening of a
      file for writing are capabilities gathered in a record [Env]; the
      theorems hold for every [Env]. *)

From Stdlib Require Import NArith String Ascii DecimalNat.
From stdpp Require Import base list gmap.

Local Open Scope N_scope.

(** ** Strings *)

Definition pystr := list N.
Definition bytes := list N.

(** A Python literal with ASCII characters only. *)
Definition py (s : string) : pystr :=
  (fun a => N_of_ascii a) <$> list_ascii_of_string s.

Module Chr.
Definition space : N := 32.
Definition dquote : N := 34.
Definition percent : N := 37.
Definition squote : N := 39.
Definition rparen : N := 41.
Definition star : N := 42.
Definition comma : N := 44.
Definition minus : N := 45.
Definition dot : N := 46.
Definition slash : N := 47.
Definition colon : N := 58.
Definition semicolon : N := 59.
Definition lt : N := 60.
Definition gt : N := 62.
Definition question : N := 63.
Definition backslash : N := 92.
Definition rbracket : N := 93.
Definition underscore : N := 95.
Definition pipe : N := 124.
(** U+FFFD, what the UTF-8 decoder emits for an undecodable sequence. *)
Definition replacement : N := 65533.
End Chr.

(** [str.isspace] of one code point, which is also what [\s] matches in a
    [str] pattern (Unicode 14, CPython 3.11). *)
Definition isspace (c : N) : bool :=
  ((9 <=? c) && (c <=? 13)) || ((28 <=? c) && (c <=? 32))
  || (c =? 133) || (c =? 160) || (c =? 5760)
  || ((8192 <=? c) && (c <=? 8202)) || (c =? 8232) || (c =? 8233)
  || (c =? 8239) || (c =? 8287) || (c =? 12288).

(** The zero digit of every block of ten decimal digits (category Nd). *)
Definition decimal_zeros : list N :=
  [48; 1632; 1776; 1984; 2406; 2534; 2662; 2790; 2918; 3046; 3174; 3302;
   3430; 3558; 3664; 3792; 3872; 4160; 4240; 6112; 6160; 6470; 6608; 6784;
   6800; 6992; 7088; 7232; 7248; 42528; 43216; 43264; 43472; 43504; 43600;
   44016; 65296; 66720; 68912; 69734; 69872; 69942; 70096; 70384; 70736;
   70864; 71248; 71360; 71472; 71904; 72016; 72784; 73040; 73120; 92768;
   92864; 93008; 123200; 123632; 125264; 130032].

(** [str.isdecimal] of one code point, which is what [\d] matches in a
    [str] pattern. The mathematical digits U+1D7CE..U+1D7FF are five
    blocks in a row. *)
Definition isdecimal (c : N) : bool :=
  existsb (fun z => (z <=? c) && (c <? z + 10)) decimal_zeros
  || ((120782 <=? c) && (c <? 120832)).

(** [str.lower] on the ASCII capitals, which is all of [bytes.lower].
    [str.lower] lowers every code point on its own, and the only code
    points outside ASCII whose lower-case form has an ASCII character in
    it are U+0130 (an [i]) and U+212A (a [k]). The program only asks a
    lowered string whether it ends with or contains the extension, or
    contains the HTML content type; neither has an [i] or a [k], so for
    these questions the capitals A-Z are all that matters. *)
Definition lower_cp (c : N) : N :=
  if (65 <=? c) && (c <=? 90) then c + 32 else c.

Definition lower (s : pystr) : pystr := lower_cp <$> s.

Definition str_eqb (s t : pystr) : bool := bool_decide (s = t).

Fixpoint startswith (s prefix : pystr) {struct prefix} : bool :=
  match prefix, s with
  | [], _ => true
  | p :: prefix', c :: s' => (c =? p) && startswith s' prefix'
  | _ :: _, [] => false
  end.

(** [s.endswith(suffix)] *)
Definition endswith (s suffix : pystr) : bool :=
  startswith (rev s) (rev suffix).

(** [sub in s] *)
Fixpoint contains (s sub : pystr) : bool :=
  startswith s sub ||
  match s with
  | [] => false
  | _ :: s' => contains s' sub
  end.

Fixpoint drop_while (p : N -> bool) (s : pystr) : pystr :=
  match s with
  | [] => []
  | c :: s' => if p c then drop_while p s' else s
  end.

Definition lstrip (s : pystr) : pystr := drop_while isspace s.
Definition rstrip_chars (p : N -> bool) (s : pystr) : pystr :=
  rev (drop_while p (rev s)).
(** [s.strip()] *)
Definition strip (s : pystr) : pystr := rstrip_chars isspace (lstrip s).

(** ** urllib.parse.unquote *)

Definition hexval (c : N) : option N :=
  if (48 <=? c) && (c <=? 57) then Some (c - 48)
  else if (65 <=? c) && (c <=? 70) then Some (c - 55)
  else if (97 <=? c) && (c <=? 102) then Some (c - 87)
  else None.

(** [unquote_to_bytes]: every [%] followed by two hexadecimal digits
    becomes one octet; any other [%] stays. *)
Fixpoint unquote_to_bytes (s : pystr) : bytes :=
  match s with
  | [] => []
  | c :: r =>
    if c =? Chr.percent then
      match r with
      | h1 :: h2 :: r' =>
        match hexval h1, hexval h2 with
        | Some a, Some b => (16 * a + b) :: unquote_to_bytes r'
        | _, _ => c :: unquote_to_bytes r
        end
      | _ => c :: unquote_to_bytes r
      end
    else c :: unquote_to_bytes r
  end.

Definition is_cont (b : N) : bool := (128 <=? b) && (b <? 192).

(** [bytes.decode('utf-8', 'replace')]: CPython replaces the longest
    prefix of an ill-formed sequence that a well-formed one could start
    with by one U+FFFD, and goes on after it. *)
Fixpoint utf8_decode (bs : bytes) : pystr :=
  match bs with
  | [] => []
  | b1 :: r1 =>
    if b1 <? 128 then b1 :: utf8_decode r1
    else if b1 <? 194 then Chr.replacement :: utf8_decode r1
    else if b1 <? 224 then
      match r1 with
      | [] => [Chr.replacement]
      | b2 :: r2 =>
        if is_cont b2
        then ((b1 - 192) * 64 + (b2 - 128)) :: utf8_decode r2
        else Chr.replacement :: utf8_decode r1
      end
    else if b1 <? 240 then
      match r1 with
      | [] => [Chr.replacement]
      | b2 :: r2 =>
        if negb (is_cont b2) || (if b2 <? 160 then b1 =? 224 else b1 =? 237)
        then Chr.replacement :: utf8_decode r1
        else
          match r2 with
          | [] => [Chr.replacement]
          | b3 :: r3 =>
            if is_cont b3
            then ((b1 - 224) * 4096 + (b2 - 128) * 64 + (b3 - 128))
                   :: utf8_decode r3
            else Chr.replacement :: utf8_decode r2
          end
      end
    else if b1 <? 245 then
      match r1 with
      | [] => [Chr.replacement]
      | b2 :: r2 =>
        if negb (is_cont b2) || (if b2 <? 144 then b1 =? 240 else b1 =? 244)
        then Chr.replacement :: utf8_decode r1
        else
          match r2 with
          | [] => [Chr.replacement]
          | b3 :: r3 =>
            if negb (is_cont b3) then Chr.replacement :: utf8_decode r2
            else
              match r3 with
              | [] => [Chr.replacement]
              | b4 :: r4 =>
                if is_cont b4
                then ((b1 - 240) * 262144 + (b2 - 128) * 4096
                      + (b3 - 128) * 64 + (b4 - 128)) :: utf8_decode r4
                else Chr.replacement :: utf8_decode r3
              end
          end
      end
    else Chr.replacement :: utf8_decode r1
  end.

(** The loop of [unquote] over the pieces of [_asciire.split]: [run] is
    the ASCII run read so far; a run is unquoted and decoded as a whole,
    the code points between two runs are kept. *)
Fixpoint unquote_parts (run s : pystr) : pystr :=
  match s with
  | [] => utf8_decode (unquote_to_bytes run)
  | c :: r =>
    if c <? 128 then unquote_parts (run ++ [c]) r
    else utf8_decode (unquote_to_bytes run) ++ c :: unquote_parts [] r
  end.

Definition unquote (s : pystr) : pystr :=
  if existsb (N.eqb Chr.percent) s then unquote_parts [] s else s.

(** ** os.path (posixpath) *)

(** [os.path.basename] of posixpath, [p[p.rfind('/') + 1:]]; [cur] is
    what follows the last separator read so far. *)
Fixpoint basename_from (cur p : pystr) : pystr :=
  match p with
  | [] => cur
  | c :: r => if c =? Chr.slash then basename_from r r else basename_from cur r
  end.

Definition basename (p : pystr) : pystr := basename_from p p.

(** ** sanitize_filename (thec.py, lines 15-28) *)

(** [re.sub(r'^\d+[\s.-]*', '', s)]: without MULTILINE the pattern can
    only match at the start, both repetitions are greedy and nothing
    follows them. *)
Definition sub_numeric_prefix (s : pystr) : pystr :=
  match s with
  | c :: _ =>
    if isdecimal c
    then drop_while (fun c => isspace c || (c =? Chr.dot) || (c =? Chr.minus))
                    (drop_while isdecimal s)
    else s
  | [] => []
  end.

(** The nine characters of the class on line 20: less-than,
    greater-than, colon, double quote, slash, backslash, bar, question
    mark and star. *)
Definition illegal (c : N) : bool :=
  (c =? Chr.lt) || (c =? Chr.gt) || (c =? Chr.colon) || (c =? Chr.dquote)
  || (c =? Chr.slash) || (c =? Chr.backslash) || (c =? Chr.pipe)
  || (c =? Chr.question) || (c =? Chr.star).

(** [re.sub] of line 20: every character of the class is removed. *)
Definition sub_illegal (s : pystr) : pystr :=
  List.filter (fun c => negb (illegal c)) s.

(** [re.sub(r'\s+', ' ', s)]: a white-space character is dropped when
    another one follows it and becomes one space when it ends its run. *)
Fixpoint sub_spaces (s : pystr) : pystr :=
  match s with
  | [] => []
  | c :: r =>
    if isspace c then
      match r with
      | c' :: _ => if isspace c' then sub_spaces r else Chr.space :: sub_spaces r
      | [] => [Chr.space]
      end
    else c :: sub_spaces r
  end.

Definition dot_mp3 : pystr := Eval cbv in py ".mp3".
Definition audio_mp3 : pystr := Eval cbv in py "audio.mp3".

(** Lines 17-21: the name before the fallback and the extension. *)
Definition clean_name (filename : pystr) : pystr :=
  let filename := unquote filename in
  let filename := basename filename in
  let filename := sub_numeric_prefix filename in
  let filename := sub_illegal filename in
  take 200 (strip (sub_spaces filename)).

(** Lines 23-28. *)
Definition with_extension (filename : pystr) : pystr :=
  let filename :=
    if str_eqb filename [] || str_eqb filename dot_mp3
    then audio_mp3 else filename in
  if negb (endswith (lower filename) dot_mp3)
  then filename ++ dot_mp3 else filename.

Definition sanitize_filename (filename : pystr) : pystr :=
  with_extension (clean_name filename).


(** ** Exceptions *)

(** The subclasses of [Exception] the program can meet. *)
Inductive exn : Type :=
| RequestException   (* connection error, timeout, too many redirects *)
| HTTPError          (* raise_for_status *)
| ValueError         (* urllib.parse on a malformed URL *)
| ParserError        (* the HTML parser *)
| OSError.           (* the file system *)

Inductive outcome (A : Type) : Type :=
| Return (a : A)
| Raise (e : exn).
Arguments Return {A} a.
Arguments Raise {A} e.

#[export] Instance outcome_ret : MRet outcome := fun A a => Return a.
#[export] Instance outcome_bind : MBind outcome := fun A B f m =>
  match m with
  | Return a => f a
  | Raise e => Raise e
  end.

#[export] Instance outcome_fmap : FMap outcome := fun A B f m =>
  match m with
  | Return a => Return (f a)
  | Raise e => Raise e
  end.

(** [try: body except Exception: handler] for a body without effects. *)
Definition try_except {A} (body : outcome A) (handler : A) : A :=
  match body with
  | Return a => a
  | Raise _ => handler
  end.

(** The loops that append to one list: the pieces each element adds, in
    order; the first exception ends the loop. *)
Fixpoint for_each {A} (f : A -> outcome (list pystr)) (l : list A)
  : outcome (list pystr) :=
  match l with
  | [] => Return []
  | x :: l' => a ← f x; b ← for_each f l'; Return (a ++ b)
  end.

(** ** The capabilities the program consumes *)

Record Request : Type := {
  url : pystr;
  headers : list (pystr * pystr);
  stream : bool;
  timeout : N
}.

(** What the program reads of a [requests.Response]. With [stream=True]
    the body arrives through [iter_content]; [iter_raises] is the
    exception that ends the iteration when the connection breaks. *)
Record Response : Type := {
  status_code : N;
  header_content_type : pystr;  (* headers.get('content-type', '') *)
  content : bytes;
  text : pystr;
  iter_content : list bytes;
  iter_raises : option exn
}.

(** What the program reads of a parsed document. *)
Record AudioTag : Type := {
  audio_src : option pystr;            (* audio.get('src') *)
  audio_sources : list (option pystr)  (* source.get('src'), each source *)
}.

Record Soup : Type := {
  find_all_audio : list AudioTag;  (* soup.find_all('audio') *)
  find_all_a : list pystr          (* a['href'], soup.find_all('a', href=True) *)
}.

Record ParseResult : Type := {
  scheme : pystr;
  netloc : pystr;
  path : pystr
}.

Record Env : Type := {
  requests_get : Request -> outcome Response;
  BeautifulSoup : bytes -> outcome Soup;
  urlparse : pystr -> outcome ParseResult;
  urljoin : pystr -> pystr -> outcome pystr;
  (** [re.findall(mp3_pattern, page_source, re.IGNORECASE)], line 88 *)
  findall_mp3 : pystr -> list pystr;
  (** [list(set(l))]: the order is that of the hash table *)
  list_of_set : list pystr -> list pystr;
  (** [Path(output).mkdir(parents=True, exist_ok=True)] *)
  mkdir : pystr -> outcome unit;
  (** [open(filepath, 'wb')], lines 186 and 223, on a path that does not
      exist: the system creates the empty file or refuses the name
      ([ValueError] for an embedded null character, [OSError] for a name
      that is too long, a directory that cannot be written, ...). *)
  open_wb : pystr -> outcome unit
}.

(** What is known of [list(set(l))]: the elements of [l], each once. *)
Record EnvOk (E : Env) : Prop := {
  list_of_set_perm : forall l, list_of_set E l ≡ₚ remove_dups l
}.

(** [Response.raise_for_status]: 4xx and 5xx raise. *)
Definition raise_for_status (r : Response) : outcome unit :=
  if (400 <=? status_code r) && (status_code r <? 600)
  then Raise HTTPError else Return tt.

Definition user_agent : pystr * pystr :=
  (py "User-Agent",
   py "Mozilla/5.0 (Windows NT 10.0; Win64; x64) AppleWebKit/537.36").

(** Lines 53-57 and 104-108. *)
Definition page_request (page_url : pystr) : Request :=
  {| url := page_url; headers := [user_agent]; stream := false; timeout := 15 |}.

(** Lines 53-60 and 104-111: fetch a page and parse it. *)
Definition fetch_page (E : Env) (page_url : pystr) : outcome (Response * Soup) :=
  response ← requests_get E (page_request page_url);
  _ ← raise_for_status response;
  soup ← BeautifulSoup E (content response);
  Return (response, soup).

(** ** is_valid_mp3_url (lines 30-46) *)

Definition dot_mp3_query : pystr := Eval cbv in py ".mp3?".

Definition is_valid_mp3_url (E : Env) (url base_domain : pystr) : bool :=
  try_except
    (parsed ← urlparse E url;
     base_parsed ← urlparse E base_domain;
     Return
       (if negb (str_eqb (netloc parsed) (netloc base_parsed)) then false
        else if negb (endswith (lower (path parsed)) dot_mp3
                      || contains (lower (path parsed)) dot_mp3_query)
        then false
        else true))
    false.

(** ** find_real_mp3_on_page (lines 48-97) *)

(** Lines 64-69 and 72-76: one [src] attribute. *)
Definition scan_src (E : Env) (page_url : pystr) (src : option pystr)
  : outcome (list pystr) :=
  match src with
  | Some ((_ :: _) as src) =>
    full_url ← urljoin E page_url src;
    Return (if contains (lower src) dot_mp3 then [full_url] else [])
  | _ => Return []
  end.

(** Lines 63-76. *)
Definition scan_audio (E : Env) (page_url : pystr) (audio : AudioTag)
  : outcome (list pystr) :=
  a ← scan_src E page_url (audio_src audio);
  b ← for_each (scan_src E page_url) (audio_sources audio);
  Return (a ++ b).

(** Lines 79-83. *)
Definition scan_a (E : Env) (page_url href : pystr) : outcome (list pystr) :=
  if contains (lower href) dot_mp3
  then full_url ← urljoin E page_url href; Return [full_url]
  else Return [].

(** The characters of [rstrip] on line 91. *)
Definition trailing_junk (c : N) : bool :=
  (c =? Chr.dquote) || (c =? Chr.comma) || (c =? Chr.semicolon)
  || (c =? Chr.rparen) || (c =? Chr.squote) || (c =? Chr.rbracket).

(** The body of the [try], up to the list [mp3_urls] at line 94. *)
Definition mp3_urls_on_page (E : Env) (page_url : pystr) : outcome (list pystr) :=
  '(response, soup) ← fetch_page E page_url;
  m1 ← for_each (scan_audio E page_url) (find_all_audio soup);
  m2 ← for_each (scan_a E page_url) (find_all_a soup);
  let m3 := rstrip_chars trailing_junk <$> findall_mp3 E (text response) in
  Return (m1 ++ m2 ++ m3).

Definition find_real_mp3_on_page (E : Env) (page_url base_domain : pystr)
  : list pystr :=
  try_except (list_of_set E <$> mp3_urls_on_page E page_url) [].

(** ** get_linked_pages (lines 99-127) *)

(** Lines 115-122: one anchor. *)
Definition scan_link (E : Env) (page_url : pystr) (base_parsed : ParseResult)
    (href : pystr) : outcome (list pystr) :=
  full_url ← urljoin E page_url href;
  parsed ← urlparse E full_url;
  Return (if str_eqb (netloc parsed) (netloc base_parsed) then [full_url] else []).

(** The body of the [try], up to the list [linked_pages] at line 124: the
    same-domain links in the order of the anchors. *)
Definition linked_pages_on_page (E : Env) (page_url base_domain : pystr)
  : outcome (list pystr) :=
  '(response, soup) ← fetch_page E page_url;
  base_parsed ← urlparse E base_domain;
  for_each (scan_link E page_url base_parsed) (find_all_a soup).

Definition get_linked_pages (E : Env) (page_url base_domain : pystr)
  : list pystr :=
  try_except (list_of_set E <$> linked_pages_on_page E page_url base_domain) [].

(** ** The output directory *)

(** The files of the output directory, by path. Whether a new file can
    be opened there is [open_wb] of [Env]. *)
Abbreviation FS := (gmap pystr bytes).

(** [os.path.exists(p)] *)
Definition path_exists (fs : FS) (p : pystr) : bool :=
  bool_decide (is_Some (fs !! p)).

(** [os.path.join(a, b)] *)
Definition path_join (a b : pystr) : pystr :=
  if startswith b [Chr.slash] then b
  else if str_eqb a [] || endswith a [Chr.slash] then a ++ b
  else a ++ Chr.slash :: b.

(** [s.rfind(c)], [None] for -1; [i] is the index of the head of [s]. *)
Fixpoint rfind_from (i : nat) (c : N) (s : pystr) (found : option nat)
  : option nat :=
  match s with
  | [] => found
  | x :: s' => rfind_from (S i) c s' (if x =? c then Some i else found)
  end.

Definition rfind (c : N) (s : pystr) : option nat := rfind_from 0 c s None.

(** [os.path.splitext(p)]: split at the last dot of the last component,
    unless only dots come before it there. *)
Definition splitext (p : pystr) : pystr * pystr :=
  match rfind Chr.dot p with
  | None => (p, [])
  | Some dotIndex =>
    let filenameIndex :=
      match rfind Chr.slash p with Some sepIndex => S sepIndex | None => O end in
    if bool_decide (filenameIndex <= dotIndex)%nat
       && negb (forallb (N.eqb Chr.dot)
                  (take (dotIndex - filenameIndex) (drop filenameIndex p)))
    then (take dotIndex p, drop dotIndex p)
    else (p, [])
  end.

Fixpoint uint_str (d : Decimal.uint) : pystr :=
  match d with
  | Decimal.Nil => []
  | Decimal.D0 d => 48 :: uint_str d
  | Decimal.D1 d => 49 :: uint_str d
  | Decimal.D2 d => 50 :: uint_str d
  | Decimal.D3 d => 51 :: uint_str d
  | Decimal.D4 d => 52 :: uint_str d
  | Decimal.D5 d => 53 :: uint_str d
  | Decimal.D6 d => 54 :: uint_str d
  | Decimal.D7 d => 55 :: uint_str d
  | Decimal.D8 d => 56 :: uint_str d
  | Decimal.D9 d => 57 :: uint_str d
  end.

(** [str(n)] *)
Definition str_of_nat (n : nat) : pystr := uint_str (Nat.to_uint n).

(** The name tried for a counter: [f"{base}_{counter}{ext}"]. *)
Definition numbered (base ext : pystr) (counter : nat) : pystr :=
  base ++ Chr.underscore :: str_of_nat counter ++ ext.

(** Lines 177-180 and 215-218: the [while] loop; [fuel] bounds the
    number of tests. *)
Fixpoint while_exists (fuel : nat) (fs : FS) (output_dir base ext : pystr)
    (counter : nat) (filename filepath : pystr) : pystr * pystr :=
  match fuel with
  | O => (filename, filepath)
  | S fuel' =>
    if path_exists fs filepath then
      let filename := numbered base ext counter in
      let filepath := path_join output_dir filename in
      while_exists fuel' fs output_dir base ext (S counter) filename filepath
    else (filename, filepath)
  end.

(** Lines 171-180 and 209-218. At most [size fs] of the paths tried
    exist, so the loop ends within [size fs + 2] tests
    ([handle_duplicates_fresh] below: the path returned is free). *)
Definition handle_duplicates (fs : FS) (output_dir filename : pystr)
  : pystr * pystr :=
  let filepath := path_join output_dir filename in
  if path_exists fs filepath then
    let '(base, ext) := splitext filename in
    while_exists (2 + size fs) fs output_dir base ext 1 filename filepath
  else (filename, filepath).

(** ** download_mp3 (lines 129-236) *)

(** A function that writes files: its result and the directory it
    leaves, also when it raises. *)
Definition effect (A : Type) : Type := outcome A * FS.

(** Lines 192-198 and 226-232. *)
Definition check_size (fs : FS) (filepath : pystr) (total_size : nat)
  : effect bool :=
  if bool_decide (total_size < 1000)%nat
  then (Return false, delete filepath fs)
  else (Return true, fs).

(** Lines 170-198: save the streamed body. When [open] raises (line 186)
    nothing is written. The chunks read before the stream breaks are in
    the file that is left behind. *)
Definition save_stream (E : Env) (fs : FS) (output_dir filename : pystr)
    (mp3_response : Response) : effect bool :=
  let '(filename, filepath) := handle_duplicates fs output_dir filename in
  match open_wb E filepath with
  | Raise e => (Raise e, fs)
  | Return _ =>
    let written := concat (iter_content mp3_response) in
    let fs := <[filepath := written]> fs in
    match iter_raises mp3_response with
    | Some e => (Raise e, fs)
    | None => check_size fs filepath (length written)
    end
  end.

(** Lines 208-232: save the body already fetched. When [open] raises
    (line 223) nothing is written. *)
Definition save_content (E : Env) (fs : FS) (output_dir filename : pystr)
    (response : Response) : effect bool :=
  let '(filename, filepath) := handle_duplicates fs output_dir filename in
  let total_size := length (content response) in
  match open_wb E filepath with
  | Raise e => (Raise e, fs)
  | Return _ =>
    let fs := <[filepath := content response]> fs in
    check_size fs filepath total_size
  end.

(** Lines 135-141. *)
Definition download_headers (referer : option pystr) : list (pystr * pystr) :=
  [user_agent; (py "Accept", py "audio/mpeg, audio/*, text/html, */*")]
  ++ match referer with
     | Some ((_ :: _) as referer) => [(py "Referer", referer)]
     | _ => []
     end.

(** The test of line 152. *)
Definition is_html (response : Response) : bool :=
  let content_type := lower (header_content_type response) in
  contains content_type (py "text/html")
  || startswith (lower (take 15 (content response))) (py "<!doctype")
  || contains (lower (take 100 (content response))) (py "<html").

(** The request of line 146 and the request of line 167. *)
Definition download_request (mp3_url : pystr) (referer : option pystr) : Request :=
  {| url := mp3_url; headers := download_headers referer;
     stream := false; timeout := 30 |}.

Definition stream_request (real_mp3_url : pystr) (referer : option pystr)
  : Request :=
  {| url := real_mp3_url; headers := download_headers referer;
     stream := true; timeout := 120 |}.

(** Lines 143-147: the first fetch. Line 143 parses the URL for the
    progress line before anything is requested. *)
Definition first_fetch (E : Env) (mp3_url : pystr) (referer : option pystr)
  : outcome (ParseResult * Response) :=
  parsed ← urlparse E mp3_url;
  response ← requests_get E (download_request mp3_url referer);
  _ ← raise_for_status response;
  Return (parsed, response).

(** Lines 163-170: the second fetch, of the player's source. *)
Definition second_fetch (E : Env) (mp3_url src : pystr) (referer : option pystr)
  : outcome (pystr * Response * ParseResult) :=
  real_mp3_url ← urljoin E mp3_url src;
  mp3_response ← requests_get E (stream_request real_mp3_url referer);
  _ ← raise_for_status mp3_response;
  parsed ← urlparse E real_mp3_url;
  Return (real_mp3_url, mp3_response, parsed).

(** The body of the [try]. *)
Definition download_mp3_try (E : Env) (mp3_url output_dir : pystr)
    (referer : option pystr) (fs : FS) : effect bool :=
  match first_fetch E mp3_url referer with
  | Raise e => (Raise e, fs)
  | Return (parsed_url, response) =>
    if is_html response then
      match BeautifulSoup E (content response) with
      | Raise e => (Raise e, fs)
      | Return soup =>
        match head (find_all_audio soup) with  (* soup.find('audio') *)
        | Some audio_tag =>
          match audio_src audio_tag with
          | Some ((_ :: _) as src) =>
            match second_fetch E mp3_url src referer with
            | Raise e => (Raise e, fs)
            | Return (real_mp3_url, mp3_response, parsed) =>
              let filename := sanitize_filename (basename (path parsed)) in
              save_stream E fs output_dir filename mp3_response
            end
          | _ => (Return false, fs)
          end
        | None => (Return false, fs)
        end
      end
    else
      let filename := sanitize_filename (basename (path parsed_url)) in
      save_content E fs output_dir filename response
  end.

Definition download_mp3 (E : Env) (mp3_url output_dir : pystr)
    (referer : option pystr) (fs : FS) : bool * FS :=
  match download_mp3_try E mp3_url output_dir referer fs with
  | (Return ok, fs') => (ok, fs')
  | (Raise _, fs') => (false, fs')
  end.

(** ** main (lines 238-310) *)

(** The calls the orchestrator makes, in order. *)
Inductive Event : Type :=
| Extract (page_url : pystr)             (* find_real_mp3_on_page *)
| Discover (page_url : pystr)            (* get_linked_pages *)
| Download (mp3_url referer : pystr).    (* download_mp3 *)

Record Run : Type := {
  all_mp3s : gset pystr;
  downloaded_count : nat;
  files : FS;
  calls : list Event
}.

(** Lines 268-272 and 294-298. *)
Definition download_new (E : Env) (output referer : pystr) (st : Run)
    (mp3 : pystr) : Run :=
  if bool_decide (mp3 ∈ all_mp3s st) then st
  else
    let '(ok, fs) := download_mp3 E mp3 output (Some referer) (files st) in
    {| all_mp3s := {[mp3]} ∪ all_mp3s st;
       downloaded_count :=
         if ok then S (downloaded_count st) else downloaded_count st;
       files := fs;
       calls := calls st ++ [Download mp3 referer] |}.

(** Lines 263-272 and 289-298: one page. *)
Definition search_page (E : Env) (base_domain output : pystr) (st : Run)
    (page_url : pystr) : Run :=
  let mp3s := find_real_mp3_on_page E page_url base_domain in
  let st := {| all_mp3s := all_mp3s st; downloaded_count := downloaded_count st;
               files := files st; calls := calls st ++ [Extract page_url] |} in
  foldl (download_new E output page_url) st mp3s.

(** Lines 245-248. *)
Definition read_start_url (line : pystr) : pystr :=
  let start_url := strip line in
  if startswith start_url (py "http") then start_url
  else py "https://" ++ start_url.

(** Line 250. *)
Definition read_output (line : pystr) : pystr :=
  match strip line with
  | [] => py "downloads"
  | output => output
  end.

(** Line 257. *)
Definition base_domain_of (parsed : ParseResult) : pystr :=
  scheme parsed ++ py "://" ++ netloc parsed.

(** Lines 261-302, once the output directory and the base domain are
    there. *)
Definition crawl (E : Env) (start_url base_domain output : pystr) (fs : FS)
  : Run :=
  let st := {| all_mp3s := ∅; downloaded_count := 0; files := fs; calls := [] |} in
  let st := search_page E base_domain output st start_url in
  let linked_pages := get_linked_pages E start_url base_domain in
  let st := {| all_mp3s := all_mp3s st; downloaded_count := downloaded_count st;
               files := files st; calls := calls st ++ [Discover start_url] |} in
  foldl (search_page E base_domain output) st (take 100 linked_pages).

(** [main], given the two lines read from the terminal and the files of
    the output directory at the start. *)
Definition main (E : Env) (line1 line2 : pystr) (fs : FS) : outcome Run :=
  let start_url := read_start_url line1 in
  let output := read_output line2 in
  _ ← mkdir E output;
  parsed ← urlparse E start_url;
  Return (crawl E start_url (base_domain_of parsed) output fs).

(** The URLs [download_mp3] was called with, and the linked pages
    searched in step 3 (the pages extracted after the discovery). *)
Definition downloads (evs : list Event) : list pystr :=
  omap (fun ev => match ev with Download u _ => Some u | _ => None end) evs.

Definition extracts (evs : list Event) : list pystr :=
  omap (fun ev => match ev with Extract p => Some p | _ => None end) evs.

Definition is_discover (ev : Event) : bool :=
  match ev with Discover _ => true | _ => false end.

Fixpoint linked_extracts (evs : list Event) : list pystr :=
  match evs with
  | [] => []
  | Discover _ :: evs' => extracts evs'
  | _ :: evs' => linked_extracts evs'
  end.

(** ** Concrete environments *)

(** The scenarios below run the program against a static site. Their URL
    functions follow [urllib.parse] on the URLs the scenarios use: no
    [;] parameters, no brackets, no control characters, no dot segments. *)

Fixpoint take_until (stop : N -> bool) (s : pystr) : pystr :=
  match s with
  | [] => []
  | c :: s' => if stop c then [] else c :: take_until stop s'
  end.

Fixpoint drop_until (stop : N -> bool) (s : pystr) : pystr :=
  match s with
  | [] => []
  | c :: s' => if stop c then s else drop_until stop s'
  end.

Definition isalpha_ascii (c : N) : bool :=
  ((65 <=? c) && (c <=? 90)) || ((97 <=? c) && (c <=? 122)).

(** The characters a scheme is made of: letters, digits, [+], [-], [.]. *)
Definition scheme_char (c : N) : bool :=
  isalpha_ascii c || ((48 <=? c) && (c <=? 57))
  || (c =? 43) || (c =? 45) || (c =? 46).

(** The scheme of [urlsplit], and what follows its colon. *)
Definition split_scheme (u : pystr) : pystr * pystr :=
  let candidate := take_until (N.eqb Chr.colon) u in
  match candidate, drop_until (N.eqb Chr.colon) u with
  | c :: _, _ :: rest =>
    if isalpha_ascii c && forallb scheme_char candidate
    then (lower candidate, rest) else ([], u)
  | _, _ => ([], u)
  end.

Definition netloc_end (c : N) : bool :=
  (c =? Chr.slash) || (c =? Chr.question) || (c =? 35).

Definition path_end (c : N) : bool := (c =? Chr.question) || (c =? 35).

Definition simple_urlparse (u : pystr) : outcome ParseResult :=
  let '(scheme, rest) := split_scheme u in
  let '(netloc, rest) :=
    if startswith rest (py "//")
    then (take_until netloc_end (drop 2 rest), drop_until netloc_end (drop 2 rest))
    else ([], rest) in
  Return {| scheme := scheme; netloc := netloc; path := take_until path_end rest |}.

(** The directory of a path: up to its last slash, [/] when it has none. *)
Definition path_dir (p : pystr) : pystr :=
  match rfind Chr.slash p with
  | Some i => take (S i) p
  | None => [Chr.slash]
  end.

Definition simple_urljoin (base ref : pystr) : outcome pystr :=
  match ref with
  | [] => Return base
  | c :: _ =>
    match fst (split_scheme ref) with
    | _ :: _ => Return ref
    | [] =>
      b ← simple_urlparse base;
      let root := scheme b ++ py "://" ++ netloc b in
      if c =? Chr.slash then Return (root ++ ref)
      else Return (root ++ path_dir (path b) ++ ref)
    end
  end.

(** One resource of a static site: its URL, what a GET answers and how
    the parser reads its body. *)
Record Resource : Type := {
  res_url : pystr;
  res_response : Response;
  res_soup : Soup;
  res_matches : list pystr   (* the matches of the pattern of line 87 *)
}.

Definition lookup_url (site : list Resource) (u : pystr) : option Resource :=
  List.find (fun r => str_eqb (res_url r) u) site.

(** The number of bytes of [s] in UTF-8. *)
Definition utf8_length (s : pystr) : nat :=
  sum_list_with
    (fun c : N => if c <? 128 then 1%nat else if c <? 2048 then 2%nat
                  else if c <? 65536 then 3%nat else 4%nat) s.

(** The file system of the scenarios: [open] refuses a path that holds a
    null character ([ValueError]) and a name of more than 255 bytes
    ([OSError], file name too long). *)
Definition simple_open_wb (filepath : pystr) : outcome unit :=
  if existsb (N.eqb 0) filepath then Raise ValueError
  else if bool_decide (255 < utf8_length (basename filepath))%nat
       then Raise OSError
  else Return tt.

(** A static site; [order] is the order [list(set(l))] gives. Any URL the
    site does not serve cannot be reached. *)
Definition site_env (site : list Resource) (order : list pystr -> list pystr)
  : Env :=
  {| requests_get := fun req =>
       match lookup_url site (url req) with
       | Some r => Return (res_response r)
       | None => Raise RequestException
       end;
     BeautifulSoup := fun body =>
       match List.find (fun r => str_eqb (content (res_response r)) body) site with
       | Some r => Return (res_soup r)
       | None => Return {| find_all_audio := []; find_all_a := [] |}
       end;
     urlparse := simple_urlparse;
     urljoin := simple_urljoin;
     findall_mp3 := fun page_source =>
       match List.find (fun r => str_eqb (text (res_response r)) page_source) site with
       | Some r => res_matches r
       | None => []
       end;
     list_of_set := order;
     mkdir := fun _ => Return tt;
     open_wb := simple_open_wb |}.

Definition html_page (u html : pystr) (audio : list AudioTag) (a : list pystr)
    (found : list pystr) : Resource :=
  {| res_url := u;
     res_response := {| status_code := 200;
                        header_content_type := py "text/html; charset=utf-8";
                        content := html; text := html;
                        iter_content := [html]; iter_raises := None |};
     res_soup := {| find_all_audio := audio; find_all_a := a |};
     res_matches := found |}.

Definition media_file (status : N) (u body : bytes) : Resource :=
  {| res_url := u;
     res_response := {| status_code := status;
                        header_content_type := py "audio/mpeg";
                        content := body; text := [];
                        iter_content := [body]; iter_raises := None |};
     res_soup := {| find_all_audio := []; find_all_a := [] |};
     res_matches := [] |}.

(** The end-to-end scenario: an album page with a player and a link to a
    page that wraps a stream of another host. *)
Module Album.
Definition seed : pystr := py "https://site.example/album".
Definition track1 : pystr := py "https://site.example/stream/track1.mp3".
Definition track2 : pystr := py "https://site.example/track2".
Definition t2_real : pystr := py "https://cdn.other.example/t2-real.mp3".
Definition track1_body : bytes := replicate 1200 255.
Definition t2_real_body : bytes := replicate 1500 254.
Definition small : pystr := py "https://site.example/stream/small.mp3".

Definition site : list Resource :=
  [ html_page seed
      (py "<!doctype html><html><audio src='/stream/track1.mp3'></audio><a href='https://site.example/track2'>2</a></html>")
      [ {| audio_src := Some (py "/stream/track1.mp3"); audio_sources := [] |} ]
      [ track2 ] [];
    html_page track2
      (py "<!doctype html><html><audio src='https://cdn.other.example/t2-real.mp3'></audio></html>")
      [ {| audio_src := Some t2_real; audio_sources := [] |} ]
      [] [ t2_real ];
    media_file 200 track1 track1_body;
    media_file 200 t2_real t2_real_body;
    media_file 200 small (replicate 40 255);
    media_file 200 (py "https://cdn.other.example/live/track1.mp3")
      (replicate 1100 253);
    media_file 404 (py "https://site.example/gone.mp3") (replicate 1200 255);
    media_file 300 (py "https://site.example/choices.mp3") (replicate 1200 255) ].

Definition env : Env := site_env site remove_dups.
End Album.

(** A page that wraps a stream whose connection breaks after two
    chunks. *)
Module BrokenStream.
Definition page : pystr := py "https://site.example/live".
Definition stream : pystr := py "https://cdn.other.example/live.mp3".
Definition chunks : list bytes := [replicate 900 255; replicate 300 255].
Definition site : list Resource :=
  [ html_page page
      (py "<html><audio src='https://cdn.other.example/live.mp3'></audio></html>")
      [ {| audio_src := Some stream; audio_sources := [] |} ] [] [ stream ];
    {| res_url := stream;
       res_response := {| status_code := 200;
                          header_content_type := py "audio/mpeg";
                          content := []; text := [];
                          iter_content := chunks;
                          iter_raises := Some RequestException |};
       res_soup := {| find_all_audio := []; find_all_a := [] |};
       res_matches := [] |} ].
Definition env : Env := site_env site remove_dups.
End BrokenStream.

(** Files whose names the file system refuses: a wrapper page whose
    stream has an escaped null character in its name, and a file whose
    name is a hundred escaped characters of three bytes each and the
    extension, 304 bytes. *)
Module RefusedName.
Definition page : pystr := py "https://site.example/play".
Definition stream : pystr := py "https://cdn.other.example/a%00.mp3".
Definition long : pystr :=
  py "https://site.example/" ++ mjoin (replicate 100 (py "%E4%B8%AD"))
    ++ py ".mp3".
Definition site : list Resource :=
  [ html_page page
      (py "<html><audio src='https://cdn.other.example/a%00.mp3'></audio></html>")
      [ {| audio_src := Some stream; audio_sources := [] |} ] [] [ stream ];
    media_file 200 stream (replicate 1200 255);
    media_file 200 long (replicate 1200 255) ].
Definition env : Env := site_env site remove_dups.
End RefusedName.

(** A seed page with 101 links to its own site, on an interpreter whose
    set order is the reverse of the insertion order. *)
Module ManyLinks.
Definition seed : pystr := py "https://site.example/index".
Definition link (i : nat) : pystr := py "https://site.example/p" ++ str_of_nat i.
Definition links : list pystr := link <$> seq 0 101.
Definition site : list Resource :=
  [ html_page seed (py "<html>links</html>") [] links [] ].
Definition env : Env := site_env site (fun l => rev (remove_dups l)).
End ManyLinks.

(** The same seed page with its first link written twice. *)
Module RepeatedLink.
Definition links : list pystr := ManyLinks.link 0 :: ManyLinks.links.
Definition site : list Resource :=
  [ html_page ManyLinks.seed (py "<html>links</html>") [] links [] ].
End RepeatedLink.

(** A seed page served over https with a link to the same host over
    http. *)
Module CrossScheme.
Definition seed : pystr := py "https://site.example/album".
Definition base_domain : pystr := py "https://site.example".
Definition plain : pystr := py "http://site.example/a".
Definition site : list Resource :=
  [ html_page seed (py "<html>a</html>") [] [ plain ] [] ].
Definition env : Env := site_env site remove_dups.
End CrossScheme.

(** ** Predicates of the statements *)

(** No character of the class of line 20. *)
Definition legal (s : pystr) : Prop := Forall (fun c => illegal c = false) s.

(** Every white-space character is a space that no white space follows. *)
Fixpoint single_spaces (s : pystr) : Prop :=
  match s with
  | [] => True
  | c :: r =>
    (isspace c = true ->
     c = Chr.space /\ forall c', head r = Some c' -> isspace c' = false)
    /\ single_spaces r
  end.

(** The first character is not a decimal digit. *)
Definition no_leading_digit (s : pystr) : Prop :=
  forall c, head s = Some c -> isdecimal c = false.

Definition raises {A} (o : outcome A) : Prop := exists e, o = Raise e.

(** A fetch or parse error on a page: the request fails, the status is
    an error status, or the parser fails. *)
Inductive page_failure (E : Env) (page_url : pystr) : Prop :=
| fetch_failed e :
    requests_get E (page_request page_url) = Raise e ->
    page_failure E page_url
| status_failed response :
    requests_get E (page_request page_url) = Return response ->
    400 <= status_code response < 600 ->
    page_failure E page_url
| parse_failed response e :
    requests_get E (page_request page_url) = Return response ->
    BeautifulSoup E (content response) = Raise e ->
    page_failure E page_url.

(** The fetch for a candidate succeeds and brings fewer than 1000
    bytes, directly or through a wrapper page. *)
Inductive undersized (E : Env) (mp3_url : pystr) (referer : option pystr)
  : Prop :=
| direct_undersized parsed_url response :
    first_fetch E mp3_url referer = Return (parsed_url, response) ->
    is_html response = false ->
    (length (content response) < 1000)%nat ->
    undersized E mp3_url referer
| stream_undersized parsed_url response soup audio_tag src
    real_mp3_url mp3_response parsed :
    first_fetch E mp3_url referer = Return (parsed_url, response) ->
    is_html response = true ->
    BeautifulSoup E (content response) = Return soup ->
    head (find_all_audio soup) = Some audio_tag ->
    audio_src audio_tag = Some src -> src <> [] ->
    second_fetch E mp3_url src referer
      = Return (real_mp3_url, mp3_response, parsed) ->
    iter_raises mp3_response = None ->
    (length (concat (iter_content mp3_response)) < 1000)%nat ->
    undersized E mp3_url referer.

(** The fetch for a candidate succeeds and brings [written], at least
    1000 bytes, to be saved as [filename]: the cleaned last segment of
    the path of the candidate itself when the body is the audio, of the
    player's source when the body is a wrapper page. *)
Inductive resolves_to (E : Env) (mp3_url : pystr) (referer : option pystr)
    (filename : pystr) (written : bytes) : Prop :=
| resolves_direct parsed_url response :
    first_fetch E mp3_url referer = Return (parsed_url, response) ->
    is_html response = false ->
    filename = sanitize_filename (basename (path parsed_url)) ->
    written = content response ->
    (1000 <= length written)%nat ->
    resolves_to E mp3_url referer filename written
| resolves_wrapper parsed_url response soup audio_tag src
    real_mp3_url mp3_response parsed :
    first_fetch E mp3_url referer = Return (parsed_url, response) ->
    is_html response = true ->
    BeautifulSoup E (content response) = Return soup ->
    head (find_all_audio soup) = Some audio_tag ->
    audio_src audio_tag = Some src -> src <> [] ->
    second_fetch E mp3_url src referer
      = Return (real_mp3_url, mp3_response, parsed) ->
    iter_raises mp3_response = None ->
    filename = sanitize_filename (basename (path parsed)) ->
    written = concat (iter_content mp3_response) ->
    (1000 <= length written)%nat ->
    resolves_to E mp3_url referer filename written.


(** The ways [download_mp3] fails before it writes: the request fails,
    the status is an error status, the wrapper page has no audio element,
    or its audio element has no source. *)
Inductive early_failure (E : Env) (mp3_url : pystr) (referer : option pystr)
  : Prop :=
| request_fails e :
    requests_get E (download_request mp3_url referer) = Raise e ->
    early_failure E mp3_url referer
| error_status response :
    requests_get E (download_request mp3_url referer) = Return response ->
    400 <= status_code response < 600 ->
    early_failure E mp3_url referer
| no_audio_tag parsed_url response soup :
    first_fetch E mp3_url referer = Return (parsed_url, response) ->
    is_html response = true ->
    BeautifulSoup E (content response) = Return soup ->
    head (find_all_audio soup) = None ->
    early_failure E mp3_url referer
| no_src_attribute parsed_url response soup audio_tag :
    first_fetch E mp3_url referer = Return (parsed_url, response) ->
    is_html response = true ->
    BeautifulSoup E (content response) = Return soup ->
    head (find_all_audio soup) = Some audio_tag ->
    audio_src audio_tag = None \/ audio_src audio_tag = Some [] ->
    early_failure E mp3_url referer.

(** Whatever is saved: the files that were there stay as they are, and
    a success adds one file under a path that was free. *)
Definition keeps_files (fs : FS) (r : effect bool) : Prop :=
  fs ⊆ r.2
  /\ (r.1 = Return true ->
      exists p written, fs !! p = None /\ r.2 = <[p:=written]> fs).

(** The seen set is the set of the URLs downloaded, each downloaded
    once. *)
Definition dedup_inv (st : Run) : Prop :=
  NoDup (downloads (calls st))
  /\ forall u, u ∈ downloads (calls st) <-> u ∈ all_mp3s st.

(** The calls that a step adds: downloads only. *)
Definition only_downloads (evs : list Event) : Prop :=
  extracts evs = [] /\ Forall (fun ev => is_discover ev = false) evs.

(** Nothing that was in the directory at the start is lost, and every
    download counted left a file. *)
Definition files_inv (fs : FS) (st : Run) : Prop :=
  fs ⊆ files st /\ (size fs + downloaded_count st <= size (files st))%nat.

(** The downloads of a run, one after the other into one directory:
    the result of each and the directory at the end. *)
Fixpoint download_all (E : Env) (output : pystr)
    (candidates : list (pystr * option pystr)) (fs : FS) : list bool * FS :=
  match candidates with
  | [] => ([], fs)
  | (mp3_url, referer) :: rest =>
    let '(ok, fs) := download_mp3 E mp3_url output referer fs in
    let '(oks, fs) := download_all E output rest fs in
    (ok :: oks, fs)
  end.

(** A percent sign followed by two hexadecimal digits, anywhere in [s]. *)
Fixpoint has_escape (s : pystr) : bool :=
  match s with
  | [] => false
  | c :: r =>
    ((c =? Chr.percent)
     && match r with
        | h1 :: h2 :: _ => bool_decide (is_Some (hexval h1) /\ is_Some (hexval h2))
        | _ => false
        end)
    || has_escape r
  end.

(** The class [[\s.-]] of line 19. *)
Definition prefix_separator (c : N) : bool :=
  isspace c || (c =? Chr.dot) || (c =? Chr.minus).

(** The code points [isspace] holds for, and those of the class of line
    19. *)
Definition whitespace : list N :=
  [9; 10; 11; 12; 13; 28; 29; 30; 31; 32; 133; 160; 5760; 8192; 8193; 8194;
   8195; 8196; 8197; 8198; 8199; 8200; 8201; 8202; 8232; 8233; 8239; 8287;
   12288].

Definition prefix_separators : list N := Chr.dot :: Chr.minus :: whitespace.

(** What the three methods of [find_real_mp3_on_page] take from a page:
    the source of an audio element or of a source element in it, the
    target of a link, each with the extension somewhere in it and resolved
    against the page URL, and a match of the pattern in the page text with
    the trailing punctuation removed. *)
Inductive media_reference (E : Env) (page_url : pystr) (response : Response)
    (soup : Soup) (u : pystr) : Prop :=
| from_audio audio src :
    audio ∈ find_all_audio soup -> audio_src audio = Some src -> src <> [] ->
    contains (lower src) dot_mp3 = true -> urljoin E page_url src = Return u ->
    media_reference E page_url response soup u
| from_source audio src :
    audio ∈ find_all_audio soup -> Some src ∈ audio_sources audio -> src <> [] ->
    contains (lower src) dot_mp3 = true -> urljoin E page_url src = Return u ->
    media_reference E page_url response soup u
| from_link href :
    href ∈ find_all_a soup -> contains (lower href) dot_mp3 = true ->
    urljoin E page_url href = Return u ->
    media_reference E page_url response soup u
| from_text m :
    m ∈ findall_mp3 E (text response) -> u = rstrip_chars trailing_junk m ->
    media_reference E page_url response soup u.

(** The page being searched after the calls [evs], when it was [page]
    before them. *)
Fixpoint current_page (page : option pystr) (evs : list Event) : option pystr :=
  match evs with
  | [] => page
  | Extract p :: evs' => current_page (Some p) evs'
  | _ :: evs' => current_page page evs'
  end.

(** Every download has the page being searched as its referer. *)
Fixpoint referers_ok (page : option pystr) (evs : list Event) : Prop :=
  match evs with
  | [] => True
  | Extract p :: evs' => referers_ok (Some p) evs'
  | Discover _ :: evs' => referers_ok page evs'
  | Download _ referer :: evs' => page = Some referer /\ referers_ok page evs'
  end.

(** * Properties *)

Arguments isspace : simpl never.
Arguments isdecimal : simpl never.
Arguments illegal : simpl never.
Arguments lower_cp : simpl never.

(** ** Strings *)

Lemma startswith_prefix (s p : pystr) : startswith s p = true <-> p `prefix_of` s.
Proof.
  revert s. induction p as [|x p IH]; intros [|c s]; simpl.
  - split; [intros _; apply prefix_nil | done].
  - split; [intros _; apply prefix_nil | done].
  - split; [done | intros [k Hk]; discriminate].
  - rewrite andb_true_iff, N.eqb_eq, IH. split.
    + intros [-> Hp]. by apply prefix_cons.
    + intros H. split; [by apply prefix_cons_inv_1 in H | by apply prefix_cons_inv_2 in H].
Qed.

Lemma endswith_suffix (s t : pystr) : endswith s t = true <-> t `suffix_of` s.
Proof.
  unfold endswith. rewrite startswith_prefix. split.
  - intros [k Hk]. exists (rev k).
    rewrite <- (rev_involutive s), Hk, rev_app_distr, rev_involutive. done.
  - intros [k ->]. exists (rev k). by rewrite rev_app_distr.
Qed.

Lemma endswith_app (s t : pystr) : endswith (s ++ t) t = true.
Proof. apply endswith_suffix. by exists s. Qed.

Lemma lower_app (s t : pystr) : lower (s ++ t) = lower s ++ lower t.
Proof. apply fmap_app. Qed.

Lemma lower_cp_3 (c : N) : lower_cp c = 51 -> c = 51.
Proof.
  unfold lower_cp. destruct ((65 <=? c) && (c <=? 90)) eqn:H; [|done].
  apply andb_true_iff in H as [H1 H2]. apply N.leb_le in H1, H2. lia.
Qed.

Lemma last_lower (s : pystr) : last (lower s) = lower_cp <$> last s.
Proof. unfold lower. by rewrite fmap_last. Qed.

Lemma suffix_last (s t : pystr) (c : N) :
  t `suffix_of` s -> last t = Some c -> last s = Some c.
Proof. intros [k ->] H. rewrite last_app, H. done. Qed.

(** A name that passes the suffix test ends with the character ['3']. *)
Lemma endswith_lower_last (s : pystr) :
  endswith (lower s) dot_mp3 = true -> last s = Some 51.
Proof.
  intros H. apply endswith_suffix in H.
  apply (suffix_last _ _ 51) in H; [|done].
  rewrite last_lower in H. destruct (last s) as [c|]; [|done].
  simpl in H. injection H as H. by apply lower_cp_3 in H as ->.
Qed.

Lemma drop_while_suffix (p : N -> bool) (s : pystr) :
  drop_while p s `suffix_of` s.
Proof.
  induction s as [|c s IH]; simpl; [done|].
  destruct (p c); [by apply suffix_cons_r | done].
Qed.

Lemma drop_while_head (p : N -> bool) (s : pystr) (c : N) :
  head (drop_while p s) = Some c -> p c = false.
Proof.
  induction s as [|x s IH]; simpl; [done|].
  destruct (p x) eqn:Hx; [done|]. simpl. by intros [= <-].
Qed.

Lemma drop_while_id (p : N -> bool) (s : pystr) :
  (forall c, head s = Some c -> p c = false) -> drop_while p s = s.
Proof. destruct s as [|c s]; simpl; [done|]. intros H. by rewrite (H c). Qed.

Lemma rstrip_chars_prefix (p : N -> bool) (s : pystr) :
  rstrip_chars p s `prefix_of` s.
Proof.
  unfold rstrip_chars. destruct (drop_while_suffix p (rev s)) as [k Hk].
  exists (rev k). by rewrite <- rev_app_distr, <- Hk, rev_involutive.
Qed.

Lemma rstrip_chars_id (p : N -> bool) (s : pystr) :
  (forall c, last s = Some c -> p c = false) -> rstrip_chars p s = s.
Proof.
  intros H. unfold rstrip_chars. rewrite drop_while_id; [apply rev_involutive|].
  intros c Hc. apply H. rewrite <- (rev_involutive s).
  destruct (rev s) as [|x r]; [done|]. simpl in *. injection Hc as ->.
  by rewrite last_snoc.
Qed.

Lemma prefix_head (s t : pystr) (c : N) :
  s `prefix_of` t -> head s = Some c -> head t = Some c.
Proof. intros [k ->]. by destruct s. Qed.

Lemma strip_head (s : pystr) (c : N) : head (strip s) = Some c -> isspace c = false.
Proof.
  intros H. apply (prefix_head _ _ _ (rstrip_chars_prefix _ _)) in H.
  by apply drop_while_head in H.
Qed.

Lemma strip_id (s : pystr) :
  (forall c, head s = Some c -> isspace c = false) ->
  (forall c, last s = Some c -> isspace c = false) -> strip s = s.
Proof.
  intros H1 H2. unfold strip, lstrip. rewrite drop_while_id by done.
  by apply rstrip_chars_id.
Qed.

(** [strip] cuts a middle out of its argument. *)
Lemma strip_middle (s : pystr) : exists a b, s = a ++ strip s ++ b.
Proof.
  destruct (rstrip_chars_prefix isspace (lstrip s)) as [b Hb].
  destruct (drop_while_suffix isspace s) as [a Ha].
  exists a, b. unfold strip. fold (lstrip s) in Ha. by rewrite <- Hb.
Qed.

(** ** sanitize_filename *)

Lemma legal_app (s t : pystr) : legal (s ++ t) <-> legal s /\ legal t.
Proof. apply Forall_app. Qed.

Lemma legal_sub_illegal (s : pystr) : legal (sub_illegal s).
Proof.
  unfold legal, sub_illegal. induction s as [|c s IH]; simpl; [constructor|].
  destruct (illegal c) eqn:H; simpl; [done | by constructor].
Qed.

Lemma legal_sub_spaces (s : pystr) : legal s -> legal (sub_spaces s).
Proof.
  induction s as [|c r IH]; intros H; [done|].
  apply Forall_cons in H as [Hc Hr]. simpl. destruct (isspace c).
  - destruct r as [|c' r']; [by repeat constructor|].
    destruct (isspace c'); [by apply IH|]. constructor; [done | by apply IH].
  - constructor; [done | by apply IH].
Qed.

Lemma legal_strip (s : pystr) : legal s -> legal (strip s).
Proof.
  intros H. destruct (strip_middle s) as (a & b & Hs). rewrite Hs in H.
  apply legal_app in H as [_ H]. by apply legal_app in H as [H _].
Qed.

Lemma clean_name_legal (s : pystr) : legal (clean_name s).
Proof.
  unfold clean_name. apply Forall_take, legal_strip, legal_sub_spaces,
    legal_sub_illegal.
Qed.

Lemma clean_name_length (s : pystr) : (length (clean_name s) <= 200)%nat.
Proof. unfold clean_name. rewrite length_take. lia. Qed.

Lemma clean_name_head (s : pystr) (c : N) :
  head (clean_name s) = Some c -> isspace c = false.
Proof.
  unfold clean_name. intros H. apply (strip_head (sub_spaces (sub_illegal
    (sub_numeric_prefix (basename (unquote s)))))).
  by apply (prefix_head _ _ _ (prefix_take _ 200)).
Qed.

Lemma single_spaces_sub_spaces (s : pystr) : single_spaces (sub_spaces s).
Proof.
  induction s as [|c r IH]; [done|]. simpl. destruct (isspace c) eqn:Hc.
  - destruct r as [|c' r']; [simpl; split; [|done]; split; [done|]; by intros|].
    destruct (isspace c') eqn:Hc'; [done|]. split; [|done].
    intros _. split; [done|]. simpl. rewrite Hc'. simpl. by intros ? [= <-].
  - split; [|done]. intros H. congruence.
Qed.

Lemma single_spaces_app_inv (s t : pystr) :
  single_spaces (s ++ t) -> single_spaces s /\ single_spaces t.
Proof.
  induction s as [|c r IH]; simpl; [done|]. intros [Hc Hr].
  destruct (IH Hr) as [H1 H2]. repeat split; [| |done|done].
  - by apply Hc.
  - intros c' Hc' . apply Hc; [done|]. by destruct r.
Qed.

Lemma single_spaces_app (s t : pystr) :
  single_spaces s -> single_spaces t ->
  (forall c, head t = Some c -> isspace c = false) -> single_spaces (s ++ t).
Proof.
  intros Hs Ht Hh. induction s as [|c r IH]; simpl; [done|].
  destruct Hs as [Hc Hr]. split; [|by apply IH].
  intros H. destruct (Hc H) as [-> Hn]. split; [done|].
  destruct r; simpl; [apply Hh | apply Hn].
Qed.

Lemma clean_name_single_spaces (s : pystr) : single_spaces (clean_name s).
Proof.
  unfold clean_name.
  pose proof (single_spaces_sub_spaces
    (sub_illegal (sub_numeric_prefix (basename (unquote s))))) as H.
  destruct (strip_middle (sub_spaces
    (sub_illegal (sub_numeric_prefix (basename (unquote s)))))) as (a & b & Hs).
  rewrite Hs in H. apply single_spaces_app_inv in H as [_ H].
  apply single_spaces_app_inv in H as [H _].
  rewrite <- (take_drop 200 (strip _)) in H.
  by apply single_spaces_app_inv in H as [H _].
Qed.

(** The three ways through lines 23-26. *)
Lemma with_extension_cases (t : pystr) :
  ((t = [] \/ t = dot_mp3) /\ with_extension t = audio_mp3)
  \/ (t <> [] /\ t <> dot_mp3 /\ endswith (lower t) dot_mp3 = true
      /\ with_extension t = t)
  \/ (t <> [] /\ endswith (lower t) dot_mp3 = false
      /\ with_extension t = t ++ dot_mp3).
Proof.
  unfold with_extension, str_eqb.
  destruct (decide (t = [])) as [->|H1];
    [left; split; [by left | reflexivity]|].
  destruct (decide (t = dot_mp3)) as [->|H2];
    [left; split; [by right | reflexivity]|].
  right. rewrite !bool_decide_false by done. cbn [orb]. destruct (endswith (lower t) dot_mp3) eqn:He; [by left | by right].
Qed.

Lemma with_extension_id (r : pystr) :
  r <> [] -> r <> dot_mp3 -> endswith (lower r) dot_mp3 = true ->
  with_extension r = r.
Proof.
  intros H1 H2 H3. destruct (with_extension_cases r) as [[[?|?] _]|[(_&_&_&H)|(_&H&_)]];
    congruence.
Qed.

Lemma sanitize_filename_endswith (s : pystr) :
  endswith (lower (sanitize_filename s)) dot_mp3 = true.
Proof.
  unfold sanitize_filename.
  destruct (with_extension_cases (clean_name s)) as [[_ ->]|[(_&_&H& ->)|(_&_& ->)]];
    [done|done|].
  rewrite lower_app. apply endswith_app.
Qed.

Lemma sanitize_filename_legal (s : pystr) : legal (sanitize_filename s).
Proof.
  unfold sanitize_filename. pose proof (clean_name_legal s) as H.
  destruct (with_extension_cases (clean_name s)) as [[_ ->]|[(_&_&_& ->)|(_&_& ->)]];
    [by repeat constructor | done | ].
  apply legal_app. split; [done | by repeat constructor].
Qed.

Lemma sanitize_filename_length (s : pystr) :
  (length (sanitize_filename s) <= 204)%nat.
Proof.
  unfold sanitize_filename. pose proof (clean_name_length s) as H.
  destruct (with_extension_cases (clean_name s)) as [[_ ->]|[(_&_&_& ->)|(_&_& ->)]];
    [simpl; lia | lia |].
  rewrite length_app. simpl. lia.
Qed.

Lemma sanitize_filename_nonempty (s : pystr) : sanitize_filename s <> [].
Proof.
  unfold sanitize_filename.
  destruct (with_extension_cases (clean_name s)) as [[_ ->]|[(H&_&_& ->)|(H&_& ->)]];
    [done | done |].
  by destruct (clean_name s).
Qed.

(** C3, as the code has it: the name is not empty, has at most 204
    characters (the 200 kept by the truncation and the four of an appended
    extension), has none of the nine characters of line 20, and passes
    the lower-case test of its suffix. *)
Theorem sanitize_filename_wellformed (filename : pystr) :
  let name := sanitize_filename filename in
  name <> [] /\ (length name <= 204)%nat /\ legal name
  /\ endswith (lower name) dot_mp3 = true.
Proof.
  split; [apply sanitize_filename_nonempty|].
  split; [apply sanitize_filename_length|].
  split; [apply sanitize_filename_legal | apply sanitize_filename_endswith].
Qed.

(** C3 as stated, with its bound of 200 characters, fails on a name of
    200 letters: the extension is appended after the truncation. *)
Lemma sanitize_filename_exceeds_200 :
  ~ (let name := sanitize_filename (replicate 200 97) in
     name <> [] /\ (length name <= 200)%nat /\ legal name
     /\ endswith (lower name) dot_mp3 = true).
Proof.
  intros (_ & H & _). unfold sanitize_filename in H.
  replace (with_extension (clean_name (replicate 200 97)))
    with (replicate 200 97 ++ dot_mp3) in H by (vm_compute; reflexivity).
  rewrite length_app, length_replicate in H. simpl in H. lia.
Qed.

Example sanitize_200_letters :
  sanitize_filename (replicate 200 97) = replicate 200 97 ++ dot_mp3.
Proof. vm_compute. reflexivity. Qed.

(** *** A second pass *)

Lemma unquote_no_percent (s : pystr) : Chr.percent ∉ s -> unquote s = s.
Proof.
  intros H. unfold unquote.
  destruct (existsb (N.eqb Chr.percent) s) eqn:E; [|done].
  apply existsb_exists in E as (c & Hc & E). apply N.eqb_eq in E as <-.
  by apply list_elem_of_In in Hc.
Qed.

Lemma basename_from_no_slash (cur p : pystr) :
  Chr.slash ∉ p -> basename_from cur p = cur.
Proof.
  induction p as [|c p IH]; simpl; [done|]. intros H.
  destruct (c =? Chr.slash) eqn:E.
  - apply N.eqb_eq in E as ->. destruct H. by left.
  - apply IH. intros Hp. apply H. by right.
Qed.

Lemma legal_no_slash (s : pystr) : legal s -> Chr.slash ∉ s.
Proof.
  intros H Hin. unfold legal in H. rewrite Forall_forall in H.
  by specialize (H _ Hin).
Qed.

Lemma sub_numeric_prefix_id (s : pystr) :
  no_leading_digit s -> sub_numeric_prefix s = s.
Proof. destruct s as [|c s]; [done|]. intros H. simpl. by rewrite (H c). Qed.

Lemma sub_illegal_id (s : pystr) : legal s -> sub_illegal s = s.
Proof.
  unfold legal, sub_illegal. induction 1 as [|c s Hc _ IH]; simpl; [done|].
  rewrite Hc. simpl. by f_equal.
Qed.

Lemma sub_spaces_id (s : pystr) : single_spaces s -> sub_spaces s = s.
Proof.
  induction s as [|c r IH]; [done|]. intros [Hc Hr]. simpl.
  destruct (isspace c) eqn:E.
  - destruct (Hc eq_refl) as [-> Hn]. destruct r as [|c' r']; [done|].
    rewrite (Hn c' eq_refl). f_equal. by apply IH.
  - f_equal. by apply IH.
Qed.

(** On a name that the first five steps leave alone, lines 17-21 only
    truncate. *)
Lemma clean_name_take (r : pystr) :
  unquote r = r -> legal r -> no_leading_digit r -> single_spaces r ->
  (forall c, head r = Some c -> isspace c = false) ->
  (forall c, last r = Some c -> isspace c = false) ->
  clean_name r = take 200 r.
Proof.
  intros Hq Hl Hd Hs Hh Ht. unfold clean_name. rewrite Hq. unfold basename.
  rewrite basename_from_no_slash by by apply legal_no_slash.
  rewrite sub_numeric_prefix_id, sub_illegal_id, sub_spaces_id, strip_id; done.
Qed.

Lemma sanitize_filename_single_spaces (s : pystr) :
  single_spaces (sanitize_filename s).
Proof.
  unfold sanitize_filename. pose proof (clean_name_single_spaces s) as H.
  destruct (with_extension_cases (clean_name s)) as [[_ ->]|[(_&_&_& ->)|(_&_& ->)]];
    [|done|].
  - apply (single_spaces_sub_spaces audio_mp3).
  - apply single_spaces_app; [done | apply (single_spaces_sub_spaces dot_mp3) |].
    by intros c [= <-].
Qed.

Lemma sanitize_filename_head (s : pystr) (c : N) :
  head (sanitize_filename s) = Some c -> isspace c = false.
Proof.
  unfold sanitize_filename. pose proof (clean_name_head s) as H.
  destruct (with_extension_cases (clean_name s)) as [[_ ->]|[(_&_&_& ->)|(Hn&_& ->)]];
    [by intros [= <-] | apply H |].
  destruct (clean_name s); [done | apply H].
Qed.

Lemma sanitize_filename_last (s : pystr) : last (sanitize_filename s) = Some 51.
Proof. apply endswith_lower_last, sanitize_filename_endswith. Qed.

Lemma sanitize_filename_not_bare (s : pystr) : sanitize_filename s <> dot_mp3.
Proof.
  unfold sanitize_filename.
  destruct (with_extension_cases (clean_name s)) as [[_ ->]|[(_&H&_& ->)|(H&_& ->)]];
    [done | done |].
  intros E. apply (f_equal length) in E. rewrite length_app in E.
  destruct (clean_name s); [done | simpl in E; lia].
Qed.

(** C8, as the code has it: a second pass leaves a sanitized name alone
    when the name holds no percent escape (decoding does not change it),
    does not start with a decimal digit, and has at most 200 characters or
    all of 204. *)
Theorem sanitize_filename_idempotent (filename : pystr) :
  let name := sanitize_filename filename in
  unquote name = name ->
  no_leading_digit name ->
  (length name <= 200 \/ length name = 204)%nat ->
  sanitize_filename name = name.
Proof.
  intros name Hq Hd Hlen.
  assert (clean_name name = take 200 name) as Hc.
  { apply clean_name_take; [done | apply sanitize_filename_legal | done
      | apply sanitize_filename_single_spaces | apply sanitize_filename_head |].
    intros c. unfold name. rewrite sanitize_filename_last. by intros [= <-]. }
  unfold sanitize_filename at 1. rewrite Hc. destruct Hlen as [Hlen|Hlen].
  - rewrite take_ge by done. apply with_extension_id;
      [apply sanitize_filename_nonempty | apply sanitize_filename_not_bare
      | apply sanitize_filename_endswith].
  - subst name. unfold sanitize_filename in *.
    pose proof (clean_name_length filename) as Hb.
    destruct (with_extension_cases (clean_name filename))
      as [[_ E]|[(_&_&_& E)|(_&_& E)]]; rewrite E in Hlen.
    + simpl in Hlen. lia.
    + lia.
    + rewrite length_app in Hlen. simpl in Hlen.
      rewrite E at 1. rewrite take_app_length' by lia. done.
Qed.

Lemma sanitize_filename_idempotent_witness :
  sanitize_filename (sanitize_filename (py "/music/03 - My%20Song.MP3"))
  = sanitize_filename (py "/music/03 - My%20Song.MP3").
Proof.
  apply (sanitize_filename_idempotent (py "/music/03 - My%20Song.MP3")).
  - vm_compute. reflexivity.
  - intros c Hc. vm_compute in Hc. injection Hc as <-. vm_compute. reflexivity.
  - left. vm_compute. lia.
Defined.

(** C8 as stated fails: the second pass strips the digit that the first
    pass uncovered. *)
Lemma sanitize_filename_not_idempotent :
  sanitize_filename (sanitize_filename (py "1 2a"))
  <> sanitize_filename (py "1 2a").
Proof. vm_compute. discriminate. Qed.

Example sanitize_twice_digit :
  sanitize_filename (py "1 2a") = py "2a.mp3"
  /\ sanitize_filename (py "2a.mp3") = py "a.mp3".
Proof. split; vm_compute; reflexivity. Qed.

(** The other two conditions are needed as well: a second pass decodes
    an escape that the first pass produced, and cuts a name of 201 to 203
    characters inside its extension. *)
Example sanitize_twice_escape :
  sanitize_filename (py "a%2541") = py "a%41.mp3"
  /\ sanitize_filename (py "a%41.mp3") = py "aA.mp3".
Proof. split; vm_compute; reflexivity. Qed.

Example sanitize_twice_long :
  sanitize_filename (replicate 199 97) = replicate 199 97 ++ py ".mp3"
  /\ sanitize_filename (replicate 199 97 ++ py ".mp3")
     = replicate 199 97 ++ py "..mp3".
Proof. split; vm_compute; reflexivity. Qed.

(** ** The two page functions *)

Lemma bind_Return {A B} (m : outcome A) (f : A -> outcome B) (b : B) :
  m ≫= f = Return b -> exists a, m = Return a /\ f a = Return b.
Proof. destruct m as [a|e]; [|done]. intros H. by exists a. Qed.

Lemma bind_Raise {A B} (m : outcome A) (f : A -> outcome B) :
  raises m -> raises (m ≫= f).
Proof. intros [e ->]. by exists e. Qed.

Lemma raise_for_status_Raise (r : Response) :
  400 <= status_code r < 600 -> raise_for_status r = Raise HTTPError.
Proof.
  intros [H1 H2]. unfold raise_for_status.
  apply N.leb_le in H1. apply N.ltb_lt in H2. by rewrite H1, H2.
Qed.

Lemma raise_for_status_Return (r : Response) :
  raise_for_status r = Return tt -> ~ (400 <= status_code r < 600).
Proof. intros H [H1 H2]. rewrite raise_for_status_Raise in H; done. Qed.

Lemma page_failure_raises (E : Env) (page_url : pystr) :
  page_failure E page_url -> raises (fetch_page E page_url).
Proof.
  unfold fetch_page. intros [e H|r H Hs|r e H Hp]; rewrite H; simpl.
  - by exists e.
  - rewrite raise_for_status_Raise by done. by exists HTTPError.
  - destruct (raise_for_status r) as [[]|e']; simpl; [|by exists e'].
    rewrite Hp. by exists e.
Qed.

Lemma find_real_mp3_on_page_raises (E : Env) (page_url base_domain : pystr) :
  raises (mp3_urls_on_page E page_url) ->
  find_real_mp3_on_page E page_url base_domain = [].
Proof. intros [e H]. unfold find_real_mp3_on_page. by rewrite H. Qed.

Lemma get_linked_pages_raises (E : Env) (page_url base_domain : pystr) :
  raises (linked_pages_on_page E page_url base_domain) ->
  get_linked_pages E page_url base_domain = [].
Proof. intros [e H]. unfold get_linked_pages. by rewrite H. Qed.

(** An exception of [urljoin] or [urlparse] on one element of the page
    ends the loop it occurs in. *)
Lemma for_each_raises {A} (f : A -> outcome (list pystr)) (l : list A) (x : A) :
  x ∈ l -> raises (f x) -> raises (for_each f l).
Proof.
  induction l as [|y l IH]; [by intros ?%elem_of_nil|].
  intros [->|Hx]%elem_of_cons Hr; simpl.
  - by apply bind_Raise.
  - destruct (f y) as [a|e]; [|by exists e]. simpl.
    destruct (IH Hx Hr) as [e ->]. by exists e.
Qed.

(** C9: a fetch or parse error on a page makes both page functions return
    the empty list. Both are total functions into lists: no exception
    leaves them, whatever the capabilities do. *)
Theorem page_failure_yields_empty (E : Env) (page_url base_domain : pystr) :
  page_failure E page_url ->
  find_real_mp3_on_page E page_url base_domain = []
  /\ get_linked_pages E page_url base_domain = [].
Proof.
  intros H%page_failure_raises. split.
  - apply find_real_mp3_on_page_raises. unfold mp3_urls_on_page.
    by apply bind_Raise.
  - apply get_linked_pages_raises. unfold linked_pages_on_page.
    by apply bind_Raise.
Qed.

Lemma page_failure_yields_empty_witness :
  find_real_mp3_on_page Album.env (py "https://site.example/gone.mp3")
    (py "https://site.example") = []
  /\ get_linked_pages Album.env (py "https://site.example/gone.mp3")
       (py "https://site.example") = [].
Proof.
  apply page_failure_yields_empty.
  eapply status_failed; [vm_compute; reflexivity|]. simpl. lia.
Defined.

(** The same holds for an error met later in the body: a link that the
    URL library rejects empties the result. *)
Lemma get_linked_pages_bad_link (E : Env) (page_url base_domain href : pystr)
    (response : Response) (soup : Soup) :
  fetch_page E page_url = Return (response, soup) ->
  href ∈ find_all_a soup -> raises (urljoin E page_url href) ->
  get_linked_pages E page_url base_domain = [].
Proof.
  intros Hf Hin Hr. apply get_linked_pages_raises.
  unfold linked_pages_on_page. rewrite Hf. simpl.
  destruct (urlparse E base_domain) as [b|e]; [|by exists e]. simpl.
  apply (for_each_raises _ _ href); [done|]. unfold scan_link.
  by apply bind_Raise.
Qed.

Lemma for_each_elem {A} (f : A -> outcome (list pystr)) (l : list A)
    (out : list pystr) (u : pystr) :
  for_each f l = Return out -> u ∈ out ->
  exists x a, x ∈ l /\ f x = Return a /\ u ∈ a.
Proof.
  revert out. induction l as [|y l IH]; intros out; simpl.
  - intros [= <-] ?%elem_of_nil. done.
  - intros (a & Ha & H)%bind_Return. apply bind_Return in H as (b & Hb & [= <-]).
    intros [Hu|Hu]%elem_of_app.
    + exists y, a. split; [by left | done].
    + destruct (IH b Hb Hu) as (x & a' & Hx & Hf & Hu').
      exists x, a'. split; [by right | done].
Qed.

Lemma elem_of_list_of_set (E : Env) (l : list pystr) (u : pystr) :
  EnvOk E -> u ∈ list_of_set E l <-> u ∈ l.
Proof.
  intros [Hp]. rewrite (Hp l). apply elem_of_remove_dups.
Qed.

Lemma NoDup_list_of_set (E : Env) (l : list pystr) :
  EnvOk E -> NoDup (list_of_set E l).
Proof. intros [Hp]. rewrite (Hp l). apply NoDup_remove_dups. Qed.

Lemma get_linked_pages_Return (E : Env) (page_url base_domain u : pystr) :
  u ∈ get_linked_pages E page_url base_domain ->
  exists discovered,
    linked_pages_on_page E page_url base_domain = Return discovered
    /\ get_linked_pages E page_url base_domain = list_of_set E discovered.
Proof.
  unfold get_linked_pages.
  destruct (linked_pages_on_page E page_url base_domain) as [l|e]; simpl.
  - intros _. by exists l.
  - by intros ?%elem_of_nil.
Qed.

(** C6, as the code has it: every URL that [get_linked_pages] returns is
    the resolution of a hyperlink of the page, and its network location
    (host, with port and user when present) is that of the base domain.
    The schemes are not compared. *)
Theorem get_linked_pages_same_netloc (E : Env)
    (page_url base_domain u : pystr) :
  EnvOk E ->
  u ∈ get_linked_pages E page_url base_domain ->
  exists response soup href base_parsed parsed,
    fetch_page E page_url = Return (response, soup)
    /\ href ∈ find_all_a soup
    /\ urljoin E page_url href = Return u
    /\ urlparse E base_domain = Return base_parsed
    /\ urlparse E u = Return parsed
    /\ netloc parsed = netloc base_parsed.
Proof.
  intros Hok Hu. destruct (get_linked_pages_Return _ _ _ _ Hu) as (l & Hl & Hg).
  rewrite Hg in Hu. apply elem_of_list_of_set in Hu; [|done].
  unfold linked_pages_on_page in Hl.
  apply bind_Return in Hl as ([response soup] & Hf & Hl).
  apply bind_Return in Hl as (base_parsed & Hb & Hl).
  destruct (for_each_elem _ _ _ _ Hl Hu) as (href & a & Hin & Hs & Ha).
  unfold scan_link in Hs. apply bind_Return in Hs as (full_url & Hj & Hs).
  apply bind_Return in Hs as (parsed & Hp & [= <-]).
  unfold str_eqb in Ha. case_bool_decide as Hn; [|by apply elem_of_nil in Ha].
  apply list_elem_of_singleton in Ha as ->.
  by exists response, soup, href, base_parsed, parsed.
Qed.

Lemma album_env_ok : EnvOk Album.env.
Proof. by constructor. Qed.

Lemma cross_scheme_env_ok : EnvOk CrossScheme.env.
Proof. by constructor. Qed.

Lemma get_linked_pages_same_netloc_witness :
  exists response soup href base_parsed parsed,
    fetch_page Album.env Album.seed = Return (response, soup)
    /\ href ∈ find_all_a soup
    /\ urljoin Album.env Album.seed href = Return Album.track2
    /\ urlparse Album.env (py "https://site.example") = Return base_parsed
    /\ urlparse Album.env Album.track2 = Return parsed
    /\ netloc parsed = netloc base_parsed.
Proof.
  apply (get_linked_pages_same_netloc Album.env Album.seed
           (py "https://site.example") Album.track2 album_env_ok).
  vm_compute. by left.
Defined.

(** C6 as stated, with the scheme compared as well, fails: a link to
    the same host over http is returned for an https base domain. *)
Lemma get_linked_pages_ignores_scheme :
  ~ (forall u,
       u ∈ get_linked_pages CrossScheme.env CrossScheme.seed
             CrossScheme.base_domain ->
       exists base_parsed parsed,
         urlparse CrossScheme.env CrossScheme.base_domain = Return base_parsed
         /\ urlparse CrossScheme.env u = Return parsed
         /\ scheme parsed = scheme base_parsed
         /\ netloc parsed = netloc base_parsed).
Proof.
  intros H. destruct (H CrossScheme.plain) as (b & p & Hb & Hp & Hs & _).
  - vm_compute. by left.
  - vm_compute in Hb, Hp. injection Hb as <-. injection Hp as <-.
    vm_compute in Hs. discriminate Hs.
Qed.

Example cross_scheme_links :
  get_linked_pages CrossScheme.env CrossScheme.seed CrossScheme.base_domain
  = [py "http://site.example/a"].
Proof. vm_compute. reflexivity. Qed.

(** ** The names tried on a collision *)

Lemma uint_str_inj (d1 d2 : Decimal.uint) : uint_str d1 = uint_str d2 -> d1 = d2.
Proof.
  revert d2. induction d1; intros []; simpl; intros H;
    try discriminate H; try done; injection H as H; f_equal; auto.
Qed.

Lemma str_of_nat_inj (n m : nat) : str_of_nat n = str_of_nat m -> n = m.
Proof.
  intros H%uint_str_inj. apply (f_equal Nat.of_uint) in H.
  by rewrite !DecimalNat.Unsigned.of_to in H.
Qed.

Lemma numbered_inj (base ext : pystr) (n m : nat) :
  numbered base ext n = numbered base ext m -> n = m.
Proof.
  unfold numbered. intros H%app_inv_head. injection H as H.
  by apply app_inv_tail, str_of_nat_inj in H.
Qed.

Lemma numbered_startswith (base ext : pystr) (n m : nat) :
  startswith (numbered base ext n) [Chr.slash]
  = startswith (numbered base ext m) [Chr.slash].
Proof. unfold numbered. by destruct base. Qed.

Lemma path_join_numbered_inj (dir base ext : pystr) (n m : nat) :
  path_join dir (numbered base ext n) = path_join dir (numbered base ext m) ->
  n = m.
Proof.
  unfold path_join. rewrite (numbered_startswith base ext n m).
  destruct (startswith (numbered base ext m) [Chr.slash]);
    [apply numbered_inj|].
  destruct (str_eqb dir [] || endswith dir [Chr.slash]).
  - intros H%app_inv_head. by apply numbered_inj in H.
  - intros H%app_inv_head. injection H as H. by apply numbered_inj in H.
Qed.

Lemma path_exists_true (fs : FS) (p : pystr) :
  path_exists fs p = true <-> is_Some (fs !! p).
Proof. unfold path_exists. apply bool_decide_eq_true. Qed.

Lemma path_exists_false (fs : FS) (p : pystr) :
  path_exists fs p = false <-> fs !! p = None.
Proof.
  unfold path_exists. rewrite bool_decide_eq_false. symmetry.
  apply eq_None_not_Some.
Qed.

Lemma while_exists_step (fuel : nat) (fs : FS) (dir base ext : pystr)
    (c : nat) (filename filepath : pystr) :
  while_exists (S fuel) fs dir base ext c filename filepath
  = if path_exists fs filepath
    then while_exists fuel fs dir base ext (S c) (numbered base ext c)
           (path_join dir (numbered base ext c))
    else (filename, filepath).
Proof. reflexivity. Qed.

(** The loop, entered at the name numbered [c]: it ends on the first
    number from [c] on whose name is free. The map [m] holds the names
    from [c] on that are taken; there are fewer of them than [fuel]. *)
Lemma while_exists_first_free (fs : FS) (dir base ext : pystr) (fuel : nat) :
  forall (m : FS) (c : nat),
    (size m < fuel)%nat ->
    (forall k, (c <= k)%nat ->
       is_Some (fs !! path_join dir (numbered base ext k)) ->
       is_Some (m !! path_join dir (numbered base ext k))) ->
    exists n, (c <= n)%nat
      /\ while_exists fuel fs dir base ext (S c) (numbered base ext c)
           (path_join dir (numbered base ext c))
         = (numbered base ext n, path_join dir (numbered base ext n))
      /\ fs !! path_join dir (numbered base ext n) = None
      /\ forall k, (c <= k < n)%nat ->
           is_Some (fs !! path_join dir (numbered base ext k)).
Proof.
  induction fuel as [|fuel IH]; intros m c Hsize Hm; [lia|]. simpl.
  destruct (path_exists fs (path_join dir (numbered base ext c))) eqn:He.
  - apply path_exists_true in He.
    destruct (IH (delete (path_join dir (numbered base ext c)) m) (S c))
      as (n & Hn & Hw & Hfree & Hbelow).
    + assert (is_Some (m !! path_join dir (numbered base ext c))) as Hin
        by (apply Hm; [lia | done]).
      rewrite map_size_delete_Some by done.
      assert (size m <> 0%nat); [|lia].
      intros Hz%map_size_empty_iff. rewrite Hz, lookup_empty in Hin.
      by destruct Hin.
    + intros k Hk Hin. rewrite lookup_delete_ne; [apply Hm; [lia | done]|].
      intros E%path_join_numbered_inj. lia.
    + exists n. split; [lia|]. split; [done|]. split; [done|].
      intros k Hk. destruct (decide (k = c)) as [->|]; [done|].
      apply Hbelow. lia.
  - apply path_exists_false in He. exists c. split; [lia|].
    split; [done|]. split; [done|]. intros k Hk. lia.
Qed.

(** What lines 171-180 choose: the name itself when it is free, and
    otherwise the first free name in the order [base_1], [base_2], ...
    The path chosen is never the path of a file. *)
Lemma handle_duplicates_spec (fs : FS) (dir filename : pystr) :
  let '(name, filepath) := handle_duplicates fs dir filename in
  filepath = path_join dir name
  /\ fs !! filepath = None
  /\ (name = filename
      \/ is_Some (fs !! path_join dir filename)
         /\ exists n, (1 <= n)%nat
              /\ name = numbered (splitext filename).1 (splitext filename).2 n
              /\ forall k, (1 <= k < n)%nat ->
                   is_Some (fs !! path_join dir
                     (numbered (splitext filename).1 (splitext filename).2 k))).
Proof.
  unfold handle_duplicates.
  destruct (path_exists fs (path_join dir filename)) eqn:He.
  - destruct (splitext filename) as [base ext]. cbn [fst snd].
    change (2 + size fs)%nat with (S (S (size fs))).
    rewrite while_exists_step, He.
    destruct (while_exists_first_free fs dir base ext (S (size fs)) fs 1)
      as (n & Hn & -> & Hfree & Hbelow); [lia | done |].
    split; [done|]. split; [done|]. right.
    split; [by apply path_exists_true|]. by exists n.
  - apply path_exists_false in He. split; [done|]. split; [done|]. by left.
Qed.

Lemma handle_duplicates_fresh (fs : FS) (dir filename : pystr) :
  fs !! (handle_duplicates fs dir filename).2 = None.
Proof.
  pose proof (handle_duplicates_spec fs dir filename) as H.
  destruct (handle_duplicates fs dir filename). by destruct H as (_ & H & _).
Qed.

(** ** download_mp3 *)

Lemma check_size_small (fs : FS) (p : pystr) (written : bytes) (n : nat) :
  fs !! p = None -> (n < 1000)%nat ->
  check_size (<[p:=written]> fs) p n = (Return false, fs).
Proof.
  intros Hp Hn. unfold check_size. rewrite bool_decide_true by done.
  by rewrite delete_insert_id.
Qed.

Lemma check_size_large (fs : FS) (p : pystr) (n : nat) :
  (1000 <= n)%nat -> check_size fs p n = (Return true, fs).
Proof. intros Hn. unfold check_size. rewrite bool_decide_false; [done | lia]. Qed.

(** A body under 1000 bytes leaves the directory as it was: either [open]
    is refused and nothing is written, or the file is written and
    removed. *)
Lemma save_content_small (E : Env) (fs : FS) (dir filename : pystr)
    (response : Response) :
  (length (content response) < 1000)%nat ->
  exists o, o <> Return true /\ save_content E fs dir filename response = (o, fs).
Proof.
  intros Hn. unfold save_content.
  pose proof (handle_duplicates_fresh fs dir filename) as Hf.
  destruct (handle_duplicates fs dir filename) as [name p].
  destruct (open_wb E p) as [[]|e]; [|by exists (Raise e)].
  exists (Return false). split; [done|]. by apply check_size_small.
Qed.

Lemma save_content_large (E : Env) (fs : FS) (dir filename : pystr)
    (response : Response) :
  open_wb E (handle_duplicates fs dir filename).2 = Return tt ->
  (1000 <= length (content response))%nat ->
  save_content E fs dir filename response
  = (Return true,
     <[(handle_duplicates fs dir filename).2 := content response]> fs).
Proof.
  intros Ho Hn. unfold save_content.
  destruct (handle_duplicates fs dir filename) as [name p].
  simpl in Ho. rewrite Ho. by apply check_size_large.
Qed.

Lemma save_stream_small (E : Env) (fs : FS) (dir filename : pystr)
    (r : Response) :
  iter_raises r = None -> (length (concat (iter_content r)) < 1000)%nat ->
  exists o, o <> Return true /\ save_stream E fs dir filename r = (o, fs).
Proof.
  intros Hr Hn. unfold save_stream.
  pose proof (handle_duplicates_fresh fs dir filename) as Hf.
  destruct (handle_duplicates fs dir filename) as [name p].
  destruct (open_wb E p) as [[]|e]; [|by exists (Raise e)].
  exists (Return false). split; [done|]. rewrite Hr. by apply check_size_small.
Qed.


(** A name that [open] refuses: the download fails and nothing is
    written. *)
Lemma save_content_refused (E : Env) (fs : FS) (dir filename : pystr)
    (response : Response) (e : exn) :
  open_wb E (handle_duplicates fs dir filename).2 = Raise e ->
  save_content E fs dir filename response = (Raise e, fs).
Proof.
  intros Ho. unfold save_content.
  destruct (handle_duplicates fs dir filename) as [name p].
  simpl in Ho. by rewrite Ho.
Qed.

Lemma save_stream_refused (E : Env) (fs : FS) (dir filename : pystr)
    (r : Response) (e : exn) :
  open_wb E (handle_duplicates fs dir filename).2 = Raise e ->
  save_stream E fs dir filename r = (Raise e, fs).
Proof.
  intros Ho. unfold save_stream.
  destruct (handle_duplicates fs dir filename) as [name p].
  simpl in Ho. by rewrite Ho.
Qed.

Lemma keeps_files_unchanged (fs : FS) (o : outcome bool) :
  o <> Return true -> keeps_files fs (o, fs).
Proof. intros H. split; [done|]. simpl. congruence. Qed.

Lemma check_size_keeps_files (fs : FS) (p : pystr) (written : bytes) (n : nat) :
  fs !! p = None -> keeps_files fs (check_size (<[p:=written]> fs) p n).
Proof.
  intros Hp. unfold check_size. case_bool_decide.
  - rewrite delete_insert_id by done. by apply keeps_files_unchanged.
  - split; [by apply insert_subseteq|]. intros _. by exists p, written.
Qed.

Lemma save_content_keeps_files (E : Env) (fs : FS) (dir filename : pystr)
    (r : Response) :
  keeps_files fs (save_content E fs dir filename r).
Proof.
  unfold save_content.
  pose proof (handle_duplicates_fresh fs dir filename) as Hf.
  destruct (handle_duplicates fs dir filename) as [name p].
  destruct (open_wb E p) as [[]|e]; [|by apply keeps_files_unchanged].
  by apply check_size_keeps_files.
Qed.

Lemma save_stream_keeps_files (E : Env) (fs : FS) (dir filename : pystr)
    (r : Response) :
  keeps_files fs (save_stream E fs dir filename r).
Proof.
  unfold save_stream.
  pose proof (handle_duplicates_fresh fs dir filename) as Hf.
  destruct (handle_duplicates fs dir filename) as [name p].
  destruct (open_wb E p) as [[]|e]; [|by apply keeps_files_unchanged].
  destruct (iter_raises r); [|by apply check_size_keeps_files].
  split; [by apply insert_subseteq | done].
Qed.

Lemma download_mp3_try_keeps_files (E : Env) (mp3_url output_dir : pystr)
    (referer : option pystr) (fs : FS) :
  keeps_files fs (download_mp3_try E mp3_url output_dir referer fs).
Proof.
  unfold download_mp3_try.
  destruct (first_fetch E mp3_url referer) as [[parsed_url response]|e];
    [|by apply keeps_files_unchanged].
  destruct (is_html response); [|apply save_content_keeps_files].
  destruct (BeautifulSoup E (content response)) as [soup|e];
    [|by apply keeps_files_unchanged].
  destruct (head (find_all_audio soup)) as [audio_tag|];
    [|by apply keeps_files_unchanged].
  destruct (audio_src audio_tag) as [[|c src]|];
    [by apply keeps_files_unchanged| |by apply keeps_files_unchanged].
  destruct (second_fetch E mp3_url (c :: src) referer) as [[[real r] parsed]|e];
    [apply save_stream_keeps_files | by apply keeps_files_unchanged].
Qed.

(** One download: no file is lost or changed, and a success leaves
    exactly one more file, under a path that was free. *)
Lemma download_mp3_keeps_files (E : Env) (mp3_url output_dir : pystr)
    (referer : option pystr) (fs : FS) :
  fs ⊆ (download_mp3 E mp3_url output_dir referer fs).2
  /\ ((download_mp3 E mp3_url output_dir referer fs).1 = true ->
      exists p written,
        fs !! p = None
        /\ (download_mp3 E mp3_url output_dir referer fs).2 = <[p:=written]> fs).
Proof.
  unfold download_mp3.
  destruct (download_mp3_try_keeps_files E mp3_url output_dir referer fs)
    as [Hsub Hok].
  destruct (download_mp3_try E mp3_url output_dir referer fs) as [[ok|e] fs'];
    simpl in *; [|done].
  split; [done|]. intros ->. by apply Hok.
Qed.

Lemma early_failure_cases (E : Env) (mp3_url : pystr) (referer : option pystr) :
  early_failure E mp3_url referer ->
  raises (first_fetch E mp3_url referer)
  \/ exists parsed_url response soup,
       first_fetch E mp3_url referer = Return (parsed_url, response)
       /\ is_html response = true
       /\ BeautifulSoup E (content response) = Return soup
       /\ (head (find_all_audio soup) = None
           \/ exists audio_tag, head (find_all_audio soup) = Some audio_tag
                /\ (audio_src audio_tag = None \/ audio_src audio_tag = Some [])).
Proof.
  intros [e H|r H Hs|p r soup Hf Hh Hp Ha|p r soup a Hf Hh Hp Ha Hs].
  - left. unfold first_fetch. destruct (urlparse E mp3_url) as [p|e'];
      [|by exists e']. simpl. rewrite H. by exists e.
  - left. unfold first_fetch. destruct (urlparse E mp3_url) as [p|e'];
      [|by exists e']. simpl. rewrite H. simpl.
    rewrite raise_for_status_Raise by done. by exists HTTPError.
  - right. exists p, r, soup. repeat split; try done. by left.
  - right. exists p, r, soup. repeat split; try done. right. by exists a.
Qed.

(** C10, as the code has it: when the first request fails, when its
    answer has a 4xx or 5xx status, or when the answer is classified as
    HTML and has no audio element or an audio element without a source,
    [download_mp3] returns [False] and the directory is as it was. *)
Theorem download_mp3_early_failure (E : Env) (mp3_url output_dir : pystr)
    (referer : option pystr) (fs : FS) :
  early_failure E mp3_url referer ->
  download_mp3 E mp3_url output_dir referer fs = (false, fs).
Proof.
  intros H. unfold download_mp3, download_mp3_try.
  destruct (early_failure_cases _ _ _ H)
    as [[e ->]|(p & r & soup & -> & -> & -> & [->|(a & -> & [->| ->])])]; done.
Qed.

Lemma download_mp3_early_failure_witness :
  download_mp3 Album.env (py "https://site.example/gone.mp3") (py "downloads")
    None ∅ = (false, ∅).
Proof.
  apply download_mp3_early_failure.
  eapply error_status; [vm_compute; reflexivity|]. simpl. lia.
Defined.

(** C10 as stated, for every status outside 2xx, fails: a final answer
    with status 300 is not an error for [raise_for_status], and its body
    is saved. *)
Lemma download_mp3_status_300 :
  ~ (forall response,
       requests_get Album.env
         (download_request (py "https://site.example/choices.mp3") None)
       = Return response ->
       ~ (200 <= status_code response < 300) ->
       download_mp3 Album.env (py "https://site.example/choices.mp3")
         (py "downloads") None ∅ = (false, ∅)).
Proof.
  intros H.
  specialize (H (res_response (media_file 300
    (py "https://site.example/choices.mp3") (replicate 1200 255)))).
  assert (download_mp3 Album.env (py "https://site.example/choices.mp3")
            (py "downloads") None ∅ = (false, ∅)) as Hd.
  { apply H; [vm_compute; reflexivity | simpl; lia]. }
  apply (f_equal fst) in Hd. vm_compute in Hd. discriminate Hd.
Qed.

Example choices_saved_despite_status :
  download_mp3 Album.env (py "https://site.example/choices.mp3")
    (py "downloads") None ∅
  = (true, {[ py "downloads/choices.mp3" := replicate 1200 255 ]}).
Proof. vm_compute. reflexivity. Qed.

(** C5: when the fetch succeeds and fewer than 1000 bytes were written,
    [download_mp3] returns [False] and the file it wrote is removed: the
    directory is as it was before the call. *)
Theorem download_mp3_undersized (E : Env) (mp3_url output_dir : pystr)
    (referer : option pystr) (fs : FS) :
  undersized E mp3_url referer ->
  download_mp3 E mp3_url output_dir referer fs = (false, fs).
Proof.
  intros [p r Hf Hh Hn|p r soup a src real r' p' Hf Hh Hp Ha Hs Hne H2 Hr Hn];
    unfold download_mp3, download_mp3_try; rewrite Hf, Hh.
  - destruct (save_content_small E fs output_dir
                (sanitize_filename (basename (path p))) r Hn) as (o & Ho & ->).
    by destruct o as [[]|e].
  - rewrite Hp, Ha, Hs. destruct src as [|c src]; [done|]. rewrite H2.
    destruct (save_stream_small E fs output_dir
                (sanitize_filename (basename (path p'))) r' Hr Hn)
      as (o & Ho & ->).
    by destruct o as [[]|e].
Qed.

Lemma download_mp3_undersized_witness :
  download_mp3 Album.env Album.small (py "downloads") (Some Album.seed) ∅
  = (false, ∅).
Proof.
  apply download_mp3_undersized.
  eapply direct_undersized; [vm_compute; reflexivity | vm_compute; reflexivity |].
  vm_compute. lia.
Defined.



(** ** A run of downloads *)

Lemma download_all_cons (E : Env) (output mp3_url : pystr)
    (referer : option pystr) (rest : list (pystr * option pystr)) (fs : FS) :
  download_all E output ((mp3_url, referer) :: rest) fs
  = ((download_mp3 E mp3_url output referer fs).1
       :: (download_all E output rest
             (download_mp3 E mp3_url output referer fs).2).1,
     (download_all E output rest
        (download_mp3 E mp3_url output referer fs).2).2).
Proof.
  simpl. destruct (download_mp3 E mp3_url output referer fs) as [ok fs1].
  simpl. by destruct (download_all E output rest fs1).
Qed.

Lemma download_mp3_size (E : Env) (mp3_url output : pystr)
    (referer : option pystr) (fs : FS) :
  (size fs <= size (download_mp3 E mp3_url output referer fs).2)%nat
  /\ ((download_mp3 E mp3_url output referer fs).1 = true ->
      size (download_mp3 E mp3_url output referer fs).2 = S (size fs)).
Proof.
  destruct (download_mp3_keeps_files E mp3_url output referer fs) as [Hs Hok].
  split; [by apply map_subseteq_size|].
  intros (p & w & Hp & ->)%Hok. by apply map_size_insert_None.
Qed.

(** In a run of downloads into one directory, every file that is there
    after some download is still there, with the same content, at the
    end. Every successful download saves under a path of its own that was
    free before the run, and what it saved is there at the end. *)
Lemma download_all_keeps_files (E : Env) (output : pystr)
    (candidates : list (pystr * option pystr)) (fs : FS) :
  let oks := (download_all E output candidates fs).1 in
  let final := (download_all E output candidates fs).2 in
  (forall k, (download_all E output (take k candidates) fs).2 ⊆ final)
  /\ (exists saved : list (pystr * bytes),
        length saved = length (List.filter id oks)
        /\ NoDup saved.*1
        /\ forall p written, (p, written) ∈ saved ->
             fs !! p = None /\ final !! p = Some written)
  /\ (Forall (fun ok => ok = true) oks ->
      size final = (size fs + length candidates)%nat).
Proof.
  revert fs. induction candidates as [|[mp3_url referer] rest IH]; intros fs.
  - simpl. split; [by intros []|]. split; [|intros _; lia].
    exists []. split; [done|]. split; [constructor|]. by intros ? ? ?%elem_of_nil.
  - cbn zeta. rewrite download_all_cons. cbn [fst snd].
    destruct (IH (download_mp3 E mp3_url output referer fs).2)
      as (Hk & (saved & Hlen & Hnd & Hsaved) & Hall).
    destruct (download_mp3_size E mp3_url output referer fs) as [Hle Hok].
    destruct (download_mp3_keeps_files E mp3_url output referer fs) as [Hs Hnew].
    split; [|split].
    + intros [|k].
      * simpl. etrans; [exact Hs | apply (Hk 0%nat)].
      * rewrite firstn_cons, download_all_cons. cbn [snd]. apply Hk.
    + destruct (download_mp3 E mp3_url output referer fs).1 eqn:Hr.
      * destruct (Hnew eq_refl) as (p & written & Hp & Hfs1).
        exists ((p, written) :: saved). split; [simpl; by rewrite Hlen|].
        split.
        -- simpl. constructor; [|done].
           intros ([q w] & Hq & Hin)%list_elem_of_fmap. simpl in Hq. subst q.
           destruct (Hsaved _ _ Hin) as [Hnone _].
           by rewrite Hfs1, lookup_insert_eq in Hnone.
        -- intros q w [[= -> ->]|Hin]%elem_of_cons.
           ++ split; [done|].
              eapply lookup_weaken; [|apply (Hk 0%nat)]. simpl.
              by rewrite Hfs1, lookup_insert_eq.
           ++ destruct (Hsaved _ _ Hin) as [Hnone Hfin]. split; [|done].
              by eapply lookup_weaken_None.
      * exists saved. split; [done|]. split; [done|].
        intros q w Hin. destruct (Hsaved _ _ Hin) as [Hnone Hfin].
        split; [|done]. by eapply lookup_weaken_None.
    + intros [Hr Hrest]%Forall_cons. rewrite Hall by done.
      rewrite Hok by done. simpl. lia.
Qed.

(** Three candidates that lead to the name [track1.mp3]: the second and
    the third go to [track1_1.mp3] and [track1_2.mp3]. *)
Example same_name_three_files :
  let run := download_all Album.env (py "downloads")
               [ (Album.track1, Some Album.seed);
                 (py "https://cdn.other.example/live/track1.mp3", None);
                 (Album.track1, None) ] ∅ in
  run.1 = [true; true; true]
  /\ size run.2 = 3%nat
  /\ run.2 !! py "downloads/track1.mp3" = Some Album.track1_body
  /\ run.2 !! py "downloads/track1_1.mp3" = Some (replicate 1100 253)
  /\ run.2 !! py "downloads/track1_2.mp3" = Some Album.track1_body.
Proof. vm_compute. repeat split; reflexivity. Qed.

(** ** main *)

Lemma downloads_app (l1 l2 : list Event) :
  downloads (l1 ++ l2) = downloads l1 ++ downloads l2.
Proof. apply omap_app. Qed.

Lemma extracts_app (l1 l2 : list Event) :
  extracts (l1 ++ l2) = extracts l1 ++ extracts l2.
Proof. apply omap_app. Qed.

Lemma download_new_inv (E : Env) (output referer : pystr) (st : Run)
    (mp3 : pystr) :
  dedup_inv st -> dedup_inv (download_new E output referer st mp3).
Proof.
  intros [Hnd Hin]. unfold download_new. case_bool_decide as Hseen; [done|].
  destruct (download_mp3 E mp3 output (Some referer) (files st)) as [ok fs].
  split; simpl.
  - rewrite downloads_app. simpl. apply NoDup_app. split; [done|].
    split; [|apply NoDup_singleton].
    intros u Hu ->%list_elem_of_singleton. by apply Hseen, Hin.
  - intros u. rewrite downloads_app, elem_of_app, Hin. simpl.
    rewrite list_elem_of_singleton, elem_of_union, elem_of_singleton. tauto.
Qed.

Lemma foldl_download_new_inv (E : Env) (output referer : pystr)
    (mp3s : list pystr) (st : Run) :
  dedup_inv st -> dedup_inv (foldl (download_new E output referer) st mp3s).
Proof.
  revert st. induction mp3s as [|mp3 mp3s IH]; intros st H; [done|].
  simpl. by apply IH, download_new_inv.
Qed.

Lemma search_page_inv (E : Env) (base_domain output : pystr) (st : Run)
    (page_url : pystr) :
  dedup_inv st -> dedup_inv (search_page E base_domain output st page_url).
Proof.
  intros [Hnd Hin]. unfold search_page. apply foldl_download_new_inv.
  split; simpl.
  - rewrite downloads_app. simpl. by rewrite app_nil_r.
  - intros u. rewrite downloads_app. simpl. rewrite app_nil_r. apply Hin.
Qed.

Lemma foldl_search_page_inv (E : Env) (base_domain output : pystr)
    (pages : list pystr) (st : Run) :
  dedup_inv st -> dedup_inv (foldl (search_page E base_domain output) st pages).
Proof.
  revert st. induction pages as [|p pages IH]; intros st H; [done|].
  simpl. by apply IH, search_page_inv.
Qed.

Lemma crawl_inv (E : Env) (start_url base_domain output : pystr) (fs : FS) :
  dedup_inv (crawl E start_url base_domain output fs).
Proof.
  unfold crawl. apply foldl_search_page_inv.
  set (st := search_page E base_domain output _ start_url).
  assert (dedup_inv st) as [Hnd Hin].
  { apply search_page_inv. split; simpl; [constructor|]. set_solver. }
  split; simpl.
  - rewrite downloads_app. simpl. by rewrite app_nil_r.
  - intros u. rewrite downloads_app. simpl. rewrite app_nil_r. apply Hin.
Qed.

Lemma main_Return (E : Env) (line1 line2 : pystr) (fs : FS) (st : Run) :
  main E line1 line2 fs = Return st ->
  exists parsed,
    mkdir E (read_output line2) = Return tt
    /\ urlparse E (read_start_url line1) = Return parsed
    /\ st = crawl E (read_start_url line1) (base_domain_of parsed)
              (read_output line2) fs.
Proof.
  unfold main. intros ([] & Hm & H)%bind_Return.
  apply bind_Return in H as (parsed & Hp & [= <-]). by exists parsed.
Qed.

(** Once the output directory is there and the start URL parses, [main]
    runs to its end: no page and no candidate can abort it. *)
Lemma main_completes (E : Env) (line1 line2 : pystr) (fs : FS)
    (parsed : ParseResult) :
  mkdir E (read_output line2) = Return tt ->
  urlparse E (read_start_url line1) = Return parsed ->
  main E line1 line2 fs
  = Return (crawl E (read_start_url line1) (base_domain_of parsed)
              (read_output line2) fs).
Proof. intros Hm Hp. unfold main. rewrite Hm. simpl. by rewrite Hp. Qed.

(** C2: in a run of [main], no URL is passed to [download_mp3] twice,
    and the seen set holds exactly the URLs that were passed to it. *)
Theorem main_downloads_once (E : Env) (line1 line2 : pystr) (fs : FS)
    (st : Run) :
  main E line1 line2 fs = Return st ->
  NoDup (downloads (calls st))
  /\ forall u, u ∈ downloads (calls st) <-> u ∈ all_mp3s st.
Proof.
  intros (parsed & _ & _ & ->)%main_Return. apply crawl_inv.
Qed.

Lemma main_downloads_once_witness :
  NoDup (downloads (calls (crawl Album.env Album.seed
                             (py "https://site.example") (py "downloads") ∅)))
  /\ forall u,
       u ∈ downloads (calls (crawl Album.env Album.seed
                               (py "https://site.example") (py "downloads") ∅))
       <-> u ∈ all_mp3s (crawl Album.env Album.seed
                           (py "https://site.example") (py "downloads") ∅).
Proof.
  apply (main_downloads_once Album.env (py " site.example/album ") (py "") ∅).
  reflexivity.
Defined.

(** The end-to-end scenario: two found, two downloaded, two files. *)
Example album_run :
  let st := crawl Album.env Album.seed (py "https://site.example")
              (py "downloads") ∅ in
  main Album.env (py " site.example/album ") (py "") ∅ = Return st
  /\ size (all_mp3s st) = 2%nat /\ downloaded_count st = 2%nat
  /\ downloads (calls st) = [Album.track1; Album.t2_real]
  /\ files st !! py "downloads/track1.mp3" = Some Album.track1_body
  /\ files st !! py "downloads/t2-real.mp3" = Some Album.t2_real_body
  /\ size (files st) = 2%nat.
Proof. vm_compute. repeat split; reflexivity. Qed.

(** *** The pages searched *)

Lemma only_downloads_nil : only_downloads [].
Proof. by split. Qed.

Lemma only_downloads_app (l1 l2 : list Event) :
  only_downloads l1 -> only_downloads l2 -> only_downloads (l1 ++ l2).
Proof.
  intros [H1 F1] [H2 F2]. split; [|by apply Forall_app].
  by rewrite extracts_app, H1, H2.
Qed.

Lemma download_new_calls (E : Env) (output referer : pystr) (st : Run)
    (mp3 : pystr) :
  exists evs, only_downloads evs
    /\ calls (download_new E output referer st mp3) = calls st ++ evs.
Proof.
  unfold download_new. case_bool_decide.
  - exists []. split; [apply only_downloads_nil | by rewrite app_nil_r].
  - destruct (download_mp3 E mp3 output (Some referer) (files st)).
    exists [Download mp3 referer]. split; [|done]. split; [done|].
    by repeat constructor.
Qed.

Lemma foldl_download_new_calls (E : Env) (output referer : pystr)
    (mp3s : list pystr) (st : Run) :
  exists evs, only_downloads evs
    /\ calls (foldl (download_new E output referer) st mp3s) = calls st ++ evs.
Proof.
  revert st. induction mp3s as [|mp3 mp3s IH]; intros st; simpl.
  - exists []. split; [apply only_downloads_nil | by rewrite app_nil_r].
  - destruct (IH (download_new E output referer st mp3)) as (evs2 & H2 & ->).
    destruct (download_new_calls E output referer st mp3) as (evs1 & H1 & ->).
    exists (evs1 ++ evs2). split; [by apply only_downloads_app|].
    by rewrite app_assoc.
Qed.

Lemma search_page_calls (E : Env) (base_domain output : pystr) (st : Run)
    (page_url : pystr) :
  exists evs, only_downloads evs
    /\ calls (search_page E base_domain output st page_url)
       = calls st ++ Extract page_url :: evs.
Proof.
  unfold search_page.
  destruct (foldl_download_new_calls E output page_url
    (find_real_mp3_on_page E page_url base_domain)
    {| all_mp3s := all_mp3s st; downloaded_count := downloaded_count st;
       files := files st; calls := calls st ++ [Extract page_url] |})
    as (evs & H & ->).
  exists evs. split; [done|]. simpl. by rewrite <- app_assoc.
Qed.

Lemma foldl_search_page_calls (E : Env) (base_domain output : pystr)
    (pages : list pystr) (st : Run) :
  exists evs, extracts evs = pages
    /\ calls (foldl (search_page E base_domain output) st pages)
       = calls st ++ evs.
Proof.
  revert st. induction pages as [|p pages IH]; intros st; simpl.
  - exists []. split; [done | by rewrite app_nil_r].
  - destruct (IH (search_page E base_domain output st p)) as (evs2 & H2 & ->).
    destruct (search_page_calls E base_domain output st p)
      as (evs1 & [H1 _] & ->).
    exists (Extract p :: evs1 ++ evs2). split.
    + change (p :: extracts (evs1 ++ evs2) = p :: pages).
      by rewrite extracts_app, H1, H2.
    + by rewrite <- app_assoc.
Qed.

Lemma linked_extracts_after (before after : list Event) (page_url : pystr) :
  Forall (fun ev => is_discover ev = false) before ->
  linked_extracts (before ++ Discover page_url :: after) = extracts after.
Proof.
  induction 1 as [|ev before Hev _ IH]; [done|]. by destruct ev.
Qed.

(** Step 3 searches the first hundred entries of the list that
    [get_linked_pages] returned, in the order of that list. *)
Lemma crawl_linked_extracts (E : Env) (start_url base_domain output : pystr)
    (fs : FS) :
  linked_extracts (calls (crawl E start_url base_domain output fs))
  = take 100 (get_linked_pages E start_url base_domain).
Proof.
  unfold crawl.
  destruct (foldl_search_page_calls E base_domain output
    (take 100 (get_linked_pages E start_url base_domain))
    {| all_mp3s := all_mp3s (search_page E base_domain output
         {| all_mp3s := ∅; downloaded_count := 0; files := fs; calls := [] |}
         start_url);
       downloaded_count := downloaded_count (search_page E base_domain output
         {| all_mp3s := ∅; downloaded_count := 0; files := fs; calls := [] |}
         start_url);
       files := files (search_page E base_domain output
         {| all_mp3s := ∅; downloaded_count := 0; files := fs; calls := [] |}
         start_url);
       calls := calls (search_page E base_domain output
         {| all_mp3s := ∅; downloaded_count := 0; files := fs; calls := [] |}
         start_url) ++ [Discover start_url] |}) as (evs & Hevs & ->).
  destruct (search_page_calls E base_domain output
    {| all_mp3s := ∅; downloaded_count := 0; files := fs; calls := [] |}
    start_url) as (evs0 & [_ H0] & ->).
  simpl. rewrite <- app_assoc. simpl.
  change (linked_extracts ((Extract start_url :: evs0)
            ++ Discover start_url :: evs) = take 100
            (get_linked_pages E start_url base_domain)).
  rewrite linked_extracts_after by by constructor. done.
Qed.

(** C4, as the code has it: step 3 searches the first hundred entries
    of the list that [get_linked_pages] returned. That list holds every
    same-domain link of the seed page once, in the order of the set that
    removed the duplicates; with a hundred different links or more,
    exactly a hundred pages are searched. *)
Theorem linked_extract_first_100 (E : Env) (line1 line2 : pystr) (fs : FS)
    (st : Run) :
  EnvOk E ->
  main E line1 line2 fs = Return st ->
  exists parsed,
    urlparse E (read_start_url line1) = Return parsed
    /\ let pages := get_linked_pages E (read_start_url line1)
                      (base_domain_of parsed) in
       linked_extracts (calls st) = take 100 pages
       /\ NoDup pages
       /\ (forall discovered,
             linked_pages_on_page E (read_start_url line1)
               (base_domain_of parsed) = Return discovered ->
             pages ≡ₚ remove_dups discovered)
       /\ ((100 <= length pages)%nat ->
           length (linked_extracts (calls st)) = 100%nat).
Proof.
  intros Hok (parsed & _ & Hp & ->)%main_Return. exists parsed.
  split; [done|]. cbn zeta. rewrite crawl_linked_extracts.
  split; [done|]. split; [|split].
  - unfold get_linked_pages.
    destruct (linked_pages_on_page _ _ _); simpl;
      [by apply NoDup_list_of_set | constructor].
  - intros discovered Hd. unfold get_linked_pages. rewrite Hd. simpl.
    by destruct Hok as [Hperm].
  - intros Hlen. rewrite length_take. lia.
Qed.

Lemma many_links_env_ok : EnvOk ManyLinks.env.
Proof.
  constructor. intros l. simpl. symmetry. apply Permutation_rev.
Qed.

Lemma linked_extract_first_100_witness :
  exists parsed,
    urlparse ManyLinks.env (read_start_url ManyLinks.seed) = Return parsed
    /\ let pages := get_linked_pages ManyLinks.env
                      (read_start_url ManyLinks.seed) (base_domain_of parsed) in
       linked_extracts (calls (crawl ManyLinks.env ManyLinks.seed
          (py "https://site.example") (py "downloads") ∅)) = take 100 pages
       /\ NoDup pages
       /\ (forall discovered,
             linked_pages_on_page ManyLinks.env (read_start_url ManyLinks.seed)
               (base_domain_of parsed) = Return discovered ->
             pages ≡ₚ remove_dups discovered)
       /\ ((100 <= length pages)%nat ->
           length (linked_extracts (calls (crawl ManyLinks.env ManyLinks.seed
             (py "https://site.example") (py "downloads") ∅))) = 100%nat).
Proof.
  apply (linked_extract_first_100 ManyLinks.env ManyLinks.seed (py "") ∅ _
           many_links_env_ok).
  reflexivity.
Defined.

(** C4 as stated, in the order of the anchors, fails: the seed page has
    101 links to its own site, and the hundred pages searched are not the
    first hundred of them. *)
Lemma linked_extract_not_anchor_order :
  main ManyLinks.env ManyLinks.seed (py "") ∅
  = Return (crawl ManyLinks.env ManyLinks.seed (py "https://site.example")
              (py "downloads") ∅)
  /\ linked_pages_on_page ManyLinks.env ManyLinks.seed
       (py "https://site.example") = Return ManyLinks.links
  /\ NoDup ManyLinks.links
  /\ length ManyLinks.links = 101%nat
  /\ linked_extracts (calls (crawl ManyLinks.env ManyLinks.seed
       (py "https://site.example") (py "downloads") ∅))
     <> take 100 ManyLinks.links.
Proof.
  split; [reflexivity|]. split; [vm_compute; reflexivity|].
  split; [apply (bool_decide_unpack (NoDup ManyLinks.links)); vm_compute;
          reflexivity|].
  split; [reflexivity|].
  rewrite crawl_linked_extracts. intros H.
  apply (f_equal head) in H. vm_compute in H. discriminate H.
Qed.

(** Whatever the order of the set, the pages searched are not the first
    hundred anchors when an anchor is repeated among them: no page is
    searched twice. *)
Lemma linked_extract_repeated_link (order : list pystr -> list pystr) :
  (forall l, order l ≡ₚ remove_dups l) ->
  linked_extracts (calls (crawl (site_env RepeatedLink.site order)
    ManyLinks.seed (py "https://site.example") (py "downloads") ∅))
  <> take 100 RepeatedLink.links.
Proof.
  intros Hperm H. rewrite crawl_linked_extracts in H.
  assert (NoDup (take 100 RepeatedLink.links)) as Hnd.
  { rewrite <- H. unfold get_linked_pages.
    destruct (linked_pages_on_page _ _ _) as [l|e]; simpl; [|constructor].
    eapply sublist_NoDup; [|apply sublist_take].
    simpl. rewrite Hperm. apply NoDup_remove_dups. }
  change (take 100 RepeatedLink.links)
    with (ManyLinks.link 0 :: take 99 ManyLinks.links) in Hnd.
  apply NoDup_cons in Hnd as [Hnotin _]. apply Hnotin.
  apply (list_elem_of_lookup_2 _ 0%nat). reflexivity.
Qed.

(** *** The files of a run *)

Lemma download_new_files (E : Env) (output referer : pystr) (fs : FS)
    (st : Run) (mp3 : pystr) :
  files_inv fs st -> files_inv fs (download_new E output referer st mp3).
Proof.
  intros [Hsub Hsize]. unfold download_new. case_bool_decide; [done|].
  destruct (download_mp3_keeps_files E mp3 output (Some referer) (files st))
    as [Hs _].
  destruct (download_mp3_size E mp3 output (Some referer) (files st))
    as [Hle Hok].
  destruct (download_mp3 E mp3 output (Some referer) (files st)) as [ok fs'].
  simpl in *. split; [by etrans|].
  destruct ok; [specialize (Hok eq_refl)|]; cbn [downloaded_count files]; lia.
Qed.

Lemma search_page_files (E : Env) (base_domain output : pystr) (fs : FS)
    (st : Run) (page_url : pystr) :
  files_inv fs st -> files_inv fs (search_page E base_domain output st page_url).
Proof.
  intros H. unfold search_page.
  generalize (find_real_mp3_on_page E page_url base_domain). intros mp3s.
  set (st0 := {| all_mp3s := all_mp3s st; downloaded_count := downloaded_count st;
                 files := files st; calls := calls st ++ [Extract page_url] |}).
  assert (files_inv fs st0) as H0 by done. clearbody st0. clear H.
  revert st0 H0. induction mp3s as [|mp3 mp3s IH]; intros st0 H0; [done|].
  simpl. by apply IH, download_new_files.
Qed.

(** In a run, the files that were in the directory are kept as they
    were, and the directory gains at least one file for each download that
    [main] counts. *)
Lemma crawl_keeps_files (E : Env) (start_url base_domain output : pystr)
    (fs : FS) :
  files_inv fs (crawl E start_url base_domain output fs).
Proof.
  unfold crawl.
  set (st := search_page E base_domain output _ start_url).
  assert (files_inv fs st) as H.
  { apply search_page_files. split; simpl; [done | lia]. }
  set (st1 := {| all_mp3s := all_mp3s st; downloaded_count := downloaded_count st;
                 files := files st; calls := calls st ++ [Discover start_url] |}).
  assert (files_inv fs st1) as H1 by done. clearbody st1. clear H.
  generalize (take 100 (get_linked_pages E start_url base_domain)).
  intros pages. revert st1 H1.
  induction pages as [|p pages IH]; intros st1 H1; [done|].
  simpl. by apply IH, search_page_files.
Qed.

(** ** sanitize_filename on examples *)

Example sanitize_numbered_track :
  sanitize_filename (py "/music/03 - My%20Song.MP3") = py "My Song.MP3".
Proof. vm_compute. reflexivity. Qed.

Example sanitize_empty : sanitize_filename [] = py "audio.mp3".
Proof. vm_compute. reflexivity. Qed.

Example sanitize_bare_extension : sanitize_filename (py ".mp3") = py "audio.mp3".
Proof. vm_compute. reflexivity. Qed.

Example sanitize_illegal :
  sanitize_filename (py "a<b>:c|d?e*f  g.ogg") = py "abcdef g.ogg.mp3".
Proof. vm_compute. reflexivity. Qed.

Example sanitize_utf8 :
  sanitize_filename (py "caf%C3%A9%FF.mp3")
  = py "caf" ++ [233; Chr.replacement] ++ py ".mp3".
Proof. vm_compute. reflexivity. Qed.

(** * More of the program *)

(** ** sanitize_filename and its steps *)

Lemma utf8_decode_ascii (bs : bytes) :
  Forall (fun b => b < 128) bs -> utf8_decode bs = bs.
Proof.
  induction 1 as [|b bs Hb _ IH]; [done|]. simpl.
  apply N.ltb_lt in Hb. rewrite Hb. by f_equal.
Qed.

Lemma has_escape_app_l (s t : pystr) :
  has_escape (s ++ t) = false -> has_escape s = false.
Proof.
  induction s as [|c r IH]; [done|]. simpl.
  intros [H1 H2]%orb_false_iff. rewrite (IH H2), orb_false_r.
  destruct (c =? Chr.percent); [|done]. simpl in *.
  destruct r as [|h1 [|h2 r']]; done.
Qed.

Lemma has_escape_app_r (s t : pystr) :
  has_escape (s ++ t) = false -> has_escape t = false.
Proof.
  induction s as [|c r IH]; [done|]. simpl.
  intros [_ H2]%orb_false_iff. by apply IH.
Qed.

Lemma unquote_to_bytes_no_escape (s : pystr) :
  has_escape s = false -> unquote_to_bytes s = s.
Proof.
  induction s as [|c r IH]; [done|]. simpl.
  intros [H1 H2]%orb_false_iff. rewrite (IH H2).
  destruct (c =? Chr.percent); [|done]. simpl in H1.
  destruct r as [|h1 [|h2 r']]; [done|done|].
  apply bool_decide_eq_false in H1.
  destruct (hexval h1) as [a|]; [|done]. destruct (hexval h2) as [b|]; [|done].
  destruct H1. by split.
Qed.

Lemma unquote_parts_no_escape (s run : pystr) :
  Forall (fun b => b < 128) run -> has_escape (run ++ s) = false ->
  unquote_parts run s = run ++ s.
Proof.
  revert run. induction s as [|c r IH]; intros run Hrun He; simpl.
  - rewrite app_nil_r in *. rewrite unquote_to_bytes_no_escape by done.
    by apply utf8_decode_ascii.
  - destruct (c <? 128) eqn:Hc.
    + rewrite IH; [by rewrite <- app_assoc | | by rewrite <- app_assoc].
      apply Forall_app. split; [done|]. constructor; [|done].
      by apply N.ltb_lt.
    + rewrite unquote_to_bytes_no_escape by by apply has_escape_app_l in He.
      rewrite utf8_decode_ascii by done. f_equal. f_equal.
      apply (IH []); [done|]. apply has_escape_app_r in He.
      simpl in He. by apply orb_false_iff in He as [_ He].
Qed.

(** X1: [unquote] changes a string at its percent escapes only: a
    string in which no percent sign is followed by two hexadecimal digits
    is returned as it is, whatever else it holds. *)
Theorem unquote_without_escape (s : pystr) :
  has_escape s = false -> unquote s = s.
Proof.
  intros H. unfold unquote. destruct (existsb _ s); [|done].
  by apply (unquote_parts_no_escape s []).
Qed.

Lemma unquote_without_escape_witness :
  unquote (py "100% of a%zz%4" ++ [233; 8364] ++ py "%") =
  py "100% of a%zz%4" ++ [233; 8364] ++ py "%".
Proof. apply unquote_without_escape. vm_compute. reflexivity. Defined.

Lemma basename_after_slash (dir name cur : pystr) :
  Chr.slash ∉ name -> basename_from cur (dir ++ Chr.slash :: name) = name.
Proof.
  intros H. revert cur. induction dir as [|c dir IH]; intros cur; simpl.
  - by apply basename_from_no_slash.
  - destruct (c =? Chr.slash); apply IH.
Qed.

Lemma sanitize_filename_no_slash (filename : pystr) :
  Chr.slash ∉ sanitize_filename filename.
Proof. apply legal_no_slash, sanitize_filename_legal. Qed.

Lemma startswith_slash_false (s : pystr) :
  Chr.slash ∉ s -> startswith s [Chr.slash] = false.
Proof.
  destruct s as [|c s]; [done|]. intros H. simpl.
  destruct (c =? Chr.slash) eqn:E; [|done].
  apply N.eqb_eq in E as ->. destruct H. by left.
Qed.

(** X2: the path [download_mp3] builds from a sanitized name lies
    directly in the output directory: it begins with the directory, and
    its last component is the name. No input leads out of the directory
    or into a subdirectory. *)
Theorem sanitized_path_in_directory (output_dir filename : pystr) :
  let name := sanitize_filename filename in
  let filepath := path_join output_dir name in
  output_dir `prefix_of` filepath /\ basename filepath = name.
Proof.
  intros name filepath. pose proof (sanitize_filename_no_slash filename) as Hs.
  unfold filepath, path_join. rewrite startswith_slash_false by done.
  unfold str_eqb. destruct (decide (output_dir = [])) as [->|Hne].
  - simpl. split; [apply prefix_nil|]. by apply basename_from_no_slash.
  - rewrite bool_decide_false by done. simpl.
    destruct (endswith output_dir [Chr.slash]) eqn:He.
    + split; [by apply prefix_app_r|].
      apply endswith_suffix in He as [d ->]. unfold basename.
      rewrite <- app_assoc. by apply basename_after_slash.
    + split; [by apply prefix_app_r|]. unfold basename.
      by apply basename_after_slash.
Qed.

(** X3: only the last segment of a path counts: a directory in front of
    the name does not change the result (no percent sign in the whole, no
    slash in the name). *)
Theorem sanitize_filename_last_segment (dir name : pystr) :
  Chr.percent ∉ dir -> Chr.percent ∉ name -> Chr.slash ∉ name ->
  sanitize_filename (dir ++ Chr.slash :: name) = sanitize_filename name.
Proof.
  intros Hd Hn Hs. unfold sanitize_filename, clean_name.
  rewrite !unquote_no_percent; [|done|].
  - unfold basename. rewrite basename_after_slash by done.
    by rewrite basename_from_no_slash.
  - intros [H|H]%elem_of_app; [done|].
    apply elem_of_cons in H as [H|H]; [discriminate H | done].
Qed.

Lemma sanitize_filename_last_segment_witness :
  sanitize_filename (py "/stream/live" ++ Chr.slash :: py "track 1.mp3")
  = sanitize_filename (py "track 1.mp3").
Proof.
  apply sanitize_filename_last_segment;
    apply (bool_decide_unpack _); vm_compute; reflexivity.
Defined.

(** X4: a name that is already well formed is returned as it is: no
    percent sign, none of the nine characters, no decimal digit in front,
    single spaces only, no white space in front, at most 200 characters,
    the extension at its end and something before it. *)
Theorem sanitize_filename_keeps_clean_name (name : pystr) :
  Chr.percent ∉ name -> legal name -> no_leading_digit name ->
  single_spaces name ->
  (forall c, head name = Some c -> isspace c = false) ->
  (length name <= 200)%nat ->
  endswith (lower name) dot_mp3 = true -> name <> dot_mp3 ->
  sanitize_filename name = name.
Proof.
  intros Hp Hl Hd Hs Hh Hlen He Hne. unfold sanitize_filename.
  rewrite clean_name_take; [| by apply unquote_no_percent | done..|].
  - rewrite take_ge by done. apply with_extension_id; [|done|done].
    intros ->. discriminate He.
  - intros c Hc. rewrite (endswith_lower_last _ He) in Hc. by injection Hc as <-.
Qed.

Lemma sanitize_filename_keeps_clean_name_witness :
  sanitize_filename (py "My Song (live).MP3") = py "My Song (live).MP3".
Proof.
  apply sanitize_filename_keeps_clean_name.
  - apply (bool_decide_unpack _). vm_compute. reflexivity.
  - apply (bool_decide_unpack _). vm_compute. reflexivity.
  - intros c Hc. vm_compute in Hc. injection Hc as <-. vm_compute. reflexivity.
  - replace (py "My Song (live).MP3")
      with (sub_spaces (py "My Song (live).MP3")) by (vm_compute; reflexivity).
    apply single_spaces_sub_spaces.
  - intros c Hc. vm_compute in Hc. injection Hc as <-. vm_compute. reflexivity.
  - vm_compute. lia.
  - vm_compute. reflexivity.
  - discriminate.
Defined.

(** X5: white space in a sanitized name is normalized: the name does
    not begin with white space, every white-space character in it is one
    space that no white space follows, and its last character is the digit
    of the extension. *)
Theorem sanitize_filename_spaces (filename : pystr) :
  let name := sanitize_filename filename in
  (forall c, head name = Some c -> isspace c = false)
  /\ single_spaces name
  /\ last name = Some 51.
Proof.
  split; [apply sanitize_filename_head|].
  split; [apply sanitize_filename_single_spaces | apply sanitize_filename_last].
Qed.

Lemma isspace_whitespace (c : N) : isspace c = true -> c ∈ whitespace.
Proof.
  unfold isspace. rewrite !orb_true_iff, !andb_true_iff, !N.leb_le, !N.eqb_eq.
  intros H.
  assert (c = 9 \/ c = 10 \/ c = 11 \/ c = 12 \/ c = 13 \/ c = 28 \/ c = 29
          \/ c = 30 \/ c = 31 \/ c = 32 \/ c = 133 \/ c = 160 \/ c = 5760
          \/ c = 8192 \/ c = 8193 \/ c = 8194 \/ c = 8195 \/ c = 8196
          \/ c = 8197 \/ c = 8198 \/ c = 8199 \/ c = 8200 \/ c = 8201
          \/ c = 8202 \/ c = 8232 \/ c = 8233 \/ c = 8239 \/ c = 8287
          \/ c = 12288) as Hc by lia.
  clear H. unfold whitespace. rewrite !elem_of_cons. tauto.
Qed.

Lemma prefix_separator_elem (c : N) :
  prefix_separator c = true -> c ∈ prefix_separators.
Proof.
  unfold prefix_separator, prefix_separators.
  rewrite !orb_true_iff, !N.eqb_eq, !elem_of_cons.
  intros [[H| ->]| ->]; [|by left|by right; left].
  right. right. by apply isspace_whitespace.
Qed.

(** A character of the class of line 19 is no decimal digit, no percent
    sign and no slash. *)
Lemma prefix_separator_plain (c : N) :
  prefix_separator c = true ->
  isdecimal c = false /\ c <> Chr.percent /\ c <> Chr.slash.
Proof.
  intros H%prefix_separator_elem.
  assert (Forall (fun c => isdecimal c = false /\ c <> Chr.percent
                          /\ c <> Chr.slash) prefix_separators) as Hall.
  { unfold prefix_separators, whitespace. repeat constructor; done. }
  rewrite Forall_forall in Hall. by apply Hall.
Qed.

Lemma isdecimal_from_48 (c : N) : isdecimal c = true -> 48 <= c.
Proof.
  unfold isdecimal. intros [H|H]%orb_true_iff.
  - apply existsb_exists in H as (z & Hz & H).
    apply andb_true_iff in H as [H _]. apply N.leb_le in H.
    assert (Forall (fun z => 48 <= z) decimal_zeros) as Hall.
    { unfold decimal_zeros. repeat constructor; done. }
    rewrite Forall_forall in Hall. apply list_elem_of_In in Hz.
    specialize (Hall _ Hz). lia.
  - apply andb_true_iff in H as [H _]. apply N.leb_le in H. lia.
Qed.

Lemma drop_while_app_all (p : N -> bool) (s t : pystr) :
  Forall (fun c => p c = true) s -> drop_while p (s ++ t) = drop_while p t.
Proof. induction 1 as [|c s Hc _ IH]; [done|]. simpl. by rewrite Hc. Qed.

(** X6: a numeric ordering prefix is stripped: decimal digits followed
    by white space, dots and hyphens in front of a name do not change the
    result, when the name itself starts with neither (no percent sign and
    no slash in the name). *)
Theorem sanitize_filename_numeric_prefix (digits sep rest : pystr) :
  digits <> [] ->
  Forall (fun c => isdecimal c = true) digits ->
  Forall (fun c => prefix_separator c = true) sep ->
  (forall c, head rest = Some c ->
     isdecimal c = false /\ prefix_separator c = false) ->
  Chr.percent ∉ rest -> Chr.slash ∉ rest ->
  sanitize_filename (digits ++ sep ++ rest) = sanitize_filename rest.
Proof.
  intros Hne Hd Hs Hr Hp Hsl.
  assert (forall x, x ∈ digits ++ sep ++ rest ->
            x ∈ rest \/ (x <> Chr.percent /\ x <> Chr.slash)) as Hin.
  { intros x [Hx|[Hx|Hx]%elem_of_app]%elem_of_app; [| |by left]; right.
    - rewrite Forall_forall in Hd. apply Hd, isdecimal_from_48 in Hx.
      unfold Chr.percent, Chr.slash. lia.
    - rewrite Forall_forall in Hs. apply Hs, prefix_separator_plain in Hx.
      tauto. }
  unfold sanitize_filename, clean_name.
  rewrite !unquote_no_percent; [|done|by intros [?|[? _]]%Hin].
  unfold basename.
  rewrite !basename_from_no_slash; [|done|by intros [?|[_ ?]]%Hin].
  f_equal. f_equal. f_equal. f_equal. f_equal.
  rewrite (sub_numeric_prefix_id rest) by (intros c Hc; by apply Hr).
  destruct digits as [|d ds]; [done|]. apply Forall_cons in Hd as [Hd Hds].
  unfold sub_numeric_prefix. cbn [app]. rewrite Hd.
  change (d :: ds ++ sep ++ rest) with ((d :: ds) ++ sep ++ rest).
  rewrite drop_while_app_all by by constructor.
  assert (drop_while isdecimal (sep ++ rest) = sep ++ rest) as ->.
  { apply drop_while_id. intros c Hc. destruct sep as [|x sep'].
    - by apply Hr.
    - injection Hc as <-. apply Forall_cons in Hs as [Hx _].
      apply prefix_separator_plain in Hx. tauto. }
  change (fun c => isspace c || (c =? Chr.dot) || (c =? Chr.minus))
    with prefix_separator.
  rewrite drop_while_app_all by done.
  apply drop_while_id. intros c Hc. by apply Hr.
Qed.

Lemma sanitize_filename_numeric_prefix_witness :
  sanitize_filename (py "03" ++ py " - " ++ py "My Song.mp3")
  = sanitize_filename (py "My Song.mp3").
Proof.
  apply sanitize_filename_numeric_prefix.
  - discriminate.
  - repeat constructor.
  - repeat constructor.
  - intros c Hc. vm_compute in Hc. injection Hc as <-.
    split; vm_compute; reflexivity.
  - apply (bool_decide_unpack _). vm_compute. reflexivity.
  - apply (bool_decide_unpack _). vm_compute. reflexivity.
Defined.

(** ** The page functions in full *)

Arguments contains : simpl never.
Arguments lower : simpl never.

Lemma for_each_incl {A} (f : A -> outcome (list pystr)) (l : list A)
    (out : list pystr) (x : A) :
  for_each f l = Return out -> x ∈ l ->
  exists a, f x = Return a /\ forall u, u ∈ a -> u ∈ out.
Proof.
  revert out. induction l as [|y l IH]; intros out; simpl.
  - by intros _ ?%elem_of_nil.
  - intros (a & Ha & H)%bind_Return. apply bind_Return in H as (b & Hb & [= <-]).
    intros [->|Hx]%elem_of_cons.
    + exists a. split; [done|]. intros u Hu. apply elem_of_app. by left.
    + destruct (IH b Hb Hx) as (a' & Ha' & Hsub). exists a'. split; [done|].
      intros u Hu. apply elem_of_app. right. by apply Hsub.
Qed.

Lemma scan_src_elem (E : Env) (page_url : pystr) (src : option pystr)
    (a : list pystr) (u : pystr) :
  scan_src E page_url src = Return a -> u ∈ a ->
  exists s, src = Some s /\ s <> [] /\ contains (lower s) dot_mp3 = true
    /\ urljoin E page_url s = Return u.
Proof.
  unfold scan_src. destruct src as [[|c s]|]; [by intros [= <-] ?%elem_of_nil| |
    by intros [= <-] ?%elem_of_nil].
  intros (full & Hj & [= <-])%bind_Return.
  destruct (contains (lower (c :: s)) dot_mp3) eqn:Hc;
    [|by intros ?%elem_of_nil].
  intros ->%list_elem_of_singleton. by exists (c :: s).
Qed.

Lemma scan_src_found (E : Env) (page_url s u : pystr) :
  s <> [] -> contains (lower s) dot_mp3 = true ->
  urljoin E page_url s = Return u ->
  scan_src E page_url (Some s) = Return [u].
Proof.
  intros Hne Hc Hj. unfold scan_src. destruct s as [|c s]; [done|].
  rewrite Hj. simpl. by rewrite Hc.
Qed.

(** X7: when nothing fails on a page, [find_real_mp3_on_page] returns,
    each once, exactly the URLs its three methods take from the page:
    sources of audio and source elements and targets of links that have
    the extension in them, in any case and on any host, and the matches of
    the pattern in the page text. *)
Theorem find_real_mp3_on_page_spec (E : Env) (page_url base_domain : pystr)
    (found : list pystr) :
  EnvOk E ->
  mp3_urls_on_page E page_url = Return found ->
  exists response soup,
    fetch_page E page_url = Return (response, soup)
    /\ NoDup (find_real_mp3_on_page E page_url base_domain)
    /\ forall u, u ∈ find_real_mp3_on_page E page_url base_domain
                 <-> media_reference E page_url response soup u.
Proof.
  intros Hok Hfound. unfold find_real_mp3_on_page. rewrite Hfound. simpl.
  unfold mp3_urls_on_page in Hfound.
  apply bind_Return in Hfound as ([response soup] & Hf & H).
  apply bind_Return in H as (m1 & H1 & H).
  apply bind_Return in H as (m2 & H2 & [= <-]).
  exists response, soup. split; [done|].
  split; [by apply NoDup_list_of_set|]. intros u.
  rewrite elem_of_list_of_set by done. rewrite !elem_of_app. split.
  - intros [Hu|[Hu|Hu]].
    + destruct (for_each_elem _ _ _ _ H1 Hu) as (audio & a & Hin & Hs & Ha).
      unfold scan_audio in Hs. apply bind_Return in Hs as (a1 & Ha1 & Hs).
      apply bind_Return in Hs as (b1 & Hb1 & [= <-]).
      apply elem_of_app in Ha as [Ha|Ha].
      * destruct (scan_src_elem _ _ _ _ _ Ha1 Ha) as (s & Hsrc & Hne & Hc & Hj).
        by eapply from_audio.
      * destruct (for_each_elem _ _ _ _ Hb1 Ha) as (src & a' & Hsrc & Hs' & Ha').
        destruct (scan_src_elem _ _ _ _ _ Hs' Ha') as (s & -> & Hne & Hc & Hj).
        by eapply from_source.
    + destruct (for_each_elem _ _ _ _ H2 Hu) as (href & a & Hin & Hs & Ha).
      unfold scan_a in Hs. destruct (contains (lower href) dot_mp3) eqn:Hc.
      * apply bind_Return in Hs as (full & Hj & [= <-]).
        apply list_elem_of_singleton in Ha as ->. by eapply from_link.
      * injection Hs as <-. by apply elem_of_nil in Ha.
    + apply list_elem_of_fmap in Hu as (m & -> & Hm). by eapply from_text.
  - intros [audio src Hin Hsrc Hne Hc Hj|audio src Hin Hsrc Hne Hc Hj
            |href Hin Hc Hj|m Hm ->].
    + left. destruct (for_each_incl _ _ _ _ H1 Hin) as (a & Hs & Hsub).
      apply Hsub. unfold scan_audio in Hs. rewrite Hsrc in Hs.
      rewrite (scan_src_found _ _ _ _ Hne Hc Hj) in Hs. simpl in Hs.
      apply bind_Return in Hs as (b1 & _ & [= <-]). by left.
    + left. destruct (for_each_incl _ _ _ _ H1 Hin) as (a & Hs & Hsub).
      apply Hsub. unfold scan_audio in Hs.
      apply bind_Return in Hs as (a1 & _ & Hs).
      apply bind_Return in Hs as (b1 & Hb1 & [= <-]).
      apply elem_of_app. right.
      destruct (for_each_incl _ _ _ _ Hb1 Hsrc) as (a' & Hs' & Hsub').
      apply Hsub'. pose proof (scan_src_found E page_url src u Hne Hc Hj) as Hx.
      assert (Return a' = Return [u]) as Heq by (rewrite <- Hs'; exact Hx).
      injection Heq as ->. by left.
    + right. left. destruct (for_each_incl _ _ _ _ H2 Hin) as (a & Hs & Hsub).
      apply Hsub. unfold scan_a in Hs. rewrite Hc, Hj in Hs.
      injection Hs as <-. by left.
    + right. right. apply list_elem_of_fmap. by exists m.
Qed.

Lemma find_real_mp3_on_page_spec_witness :
  exists response soup,
    fetch_page Album.env Album.track2 = Return (response, soup)
    /\ NoDup (find_real_mp3_on_page Album.env Album.track2 [])
    /\ forall u, u ∈ find_real_mp3_on_page Album.env Album.track2 []
                 <-> media_reference Album.env Album.track2 response soup u.
Proof.
  apply (find_real_mp3_on_page_spec Album.env Album.track2 []
           [Album.t2_real; Album.t2_real] album_env_ok).
  vm_compute. reflexivity.
Defined.

(** X8: when nothing fails on a page, [get_linked_pages] returns, each
    once, exactly the links of the page whose resolved URL has the network
    location of the base domain; none of them is left out, whatever its
    path ends with. *)
Theorem get_linked_pages_spec (E : Env) (page_url base_domain : pystr)
    (discovered : list pystr) :
  EnvOk E ->
  linked_pages_on_page E page_url base_domain = Return discovered ->
  exists response soup base_parsed,
    fetch_page E page_url = Return (response, soup)
    /\ urlparse E base_domain = Return base_parsed
    /\ NoDup (get_linked_pages E page_url base_domain)
    /\ forall u, u ∈ get_linked_pages E page_url base_domain
         <-> exists href parsed,
               href ∈ find_all_a soup
               /\ urljoin E page_url href = Return u
               /\ urlparse E u = Return parsed
               /\ netloc parsed = netloc base_parsed.
Proof.
  intros Hok Hd. unfold get_linked_pages. rewrite Hd. simpl.
  unfold linked_pages_on_page in Hd.
  apply bind_Return in Hd as ([response soup] & Hf & H).
  apply bind_Return in H as (base_parsed & Hb & H).
  exists response, soup, base_parsed. split; [done|]. split; [done|].
  split; [by apply NoDup_list_of_set|]. intros u.
  rewrite elem_of_list_of_set by done. split.
  - intros Hu. destruct (for_each_elem _ _ _ _ H Hu) as (href & a & Hin & Hs & Ha).
    unfold scan_link in Hs. apply bind_Return in Hs as (full & Hj & Hs).
    apply bind_Return in Hs as (parsed & Hp & [= <-]).
    unfold str_eqb in Ha. case_bool_decide as Hn; [|by apply elem_of_nil in Ha].
    apply list_elem_of_singleton in Ha as ->. by exists href, parsed.
  - intros (href & parsed & Hin & Hj & Hp & Hn).
    destruct (for_each_incl _ _ _ _ H Hin) as (a & Hs & Hsub). apply Hsub.
    unfold scan_link in Hs. rewrite Hj in Hs. simpl in Hs. rewrite Hp in Hs.
    simpl in Hs. unfold str_eqb in Hs. rewrite bool_decide_true in Hs by done.
    injection Hs as <-. by left.
Qed.

Lemma get_linked_pages_spec_witness :
  exists response soup base_parsed,
    fetch_page CrossScheme.env CrossScheme.seed = Return (response, soup)
    /\ urlparse CrossScheme.env CrossScheme.base_domain = Return base_parsed
    /\ NoDup (get_linked_pages CrossScheme.env CrossScheme.seed
                CrossScheme.base_domain)
    /\ forall u, u ∈ get_linked_pages CrossScheme.env CrossScheme.seed
                       CrossScheme.base_domain
         <-> exists href parsed,
               href ∈ find_all_a soup
               /\ urljoin CrossScheme.env CrossScheme.seed href = Return u
               /\ urlparse CrossScheme.env u = Return parsed
               /\ netloc parsed = netloc base_parsed.
Proof.
  apply (get_linked_pages_spec CrossScheme.env CrossScheme.seed
           CrossScheme.base_domain [CrossScheme.plain] cross_scheme_env_ok).
  vm_compute. reflexivity.
Defined.

(** ** is_valid_mp3_url *)

Lemma contains_elem (s t : pystr) (c : N) :
  contains s t = true -> c ∈ t -> c ∈ s.
Proof.
  induction s as [|x s IH].
  - change (contains [] t) with (startswith [] t || false).
    rewrite orb_true_iff.
    intros [[k Hk]%startswith_prefix|?]; [|done]. by destruct t.
  - change (contains (x :: s) t) with (startswith (x :: s) t || contains s t).
    rewrite orb_true_iff. intros [[k ->]%startswith_prefix|H] Hc.
    + apply elem_of_app. by left.
    + right. by apply IH.
Qed.

Lemma lower_question (s : pystr) : Chr.question ∈ lower s -> Chr.question ∈ s.
Proof.
  unfold lower. intros (c & Hc & Hin)%list_elem_of_fmap.
  assert (c = Chr.question) as ->; [|done].
  unfold lower_cp, Chr.question in *.
  destruct ((65 <=? c) && (c <=? 90)) eqn:H; [|done].
  apply andb_true_iff in H as [H1 H2]. apply N.leb_le in H1, H2. lia.
Qed.

(** X9: [is_valid_mp3_url] holds exactly when both URLs parse, have
    the same network location, and the path of the first ends with the
    extension in any case. A URL that does not parse gives [False]; the
    second test of line 41 never decides, since the path that the URL
    library returns holds no question mark. *)
Theorem is_valid_mp3_url_spec (E : Env) (url base_domain : pystr) :
  (forall parsed, urlparse E url = Return parsed ->
     Chr.question ∉ path parsed) ->
  is_valid_mp3_url E url base_domain = true
  <-> exists parsed base_parsed,
        urlparse E url = Return parsed
        /\ urlparse E base_domain = Return base_parsed
        /\ netloc parsed = netloc base_parsed
        /\ endswith (lower (path parsed)) dot_mp3 = true.
Proof.
  intros Hq. unfold is_valid_mp3_url.
  destruct (urlparse E url) as [parsed|e] eqn:Hp; simpl;
    [|split; [done | by intros (? & ? & [=] & _)]].
  destruct (urlparse E base_domain) as [base_parsed|e] eqn:Hb; simpl;
    [|split; [done | by intros (? & ? & _ & [=] & _)]].
  assert (contains (lower (path parsed)) dot_mp3_query = false) as ->.
  { destruct (contains _ dot_mp3_query) eqn:Hc; [|done].
    destruct (Hq parsed eq_refl). apply lower_question.
    apply (contains_elem _ _ _ Hc). unfold dot_mp3_query.
    rewrite !elem_of_cons. tauto. }
  rewrite orb_false_r. unfold str_eqb. split.
  - case_bool_decide as Hn; simpl; [|done].
    destruct (endswith (lower (path parsed)) dot_mp3) eqn:He; simpl; [|done].
    intros _. by exists parsed, base_parsed.
  - intros (p & b & [= <-] & [= <-] & Hn & He).
    rewrite bool_decide_true by done. simpl. by rewrite He.
Qed.

Lemma is_valid_mp3_url_spec_witness :
  is_valid_mp3_url Album.env (py "https://site.example/stream/Track1.MP3?x=1")
    (py "https://site.example") = true
  <-> exists parsed base_parsed,
        urlparse Album.env (py "https://site.example/stream/Track1.MP3?x=1")
          = Return parsed
        /\ urlparse Album.env (py "https://site.example") = Return base_parsed
        /\ netloc parsed = netloc base_parsed
        /\ endswith (lower (path parsed)) dot_mp3 = true.
Proof.
  apply is_valid_mp3_url_spec. intros parsed H. vm_compute in H.
  injection H as <-. apply (bool_decide_unpack _). vm_compute. reflexivity.
Defined.

Example is_valid_mp3_url_examples :
  is_valid_mp3_url Album.env (py "https://site.example/stream/Track1.MP3?x=1")
    (py "https://site.example") = true
  /\ is_valid_mp3_url Album.env (py "https://cdn.other.example/t2-real.mp3")
       (py "https://site.example") = false
  /\ is_valid_mp3_url Album.env (py "https://site.example/track2")
       (py "https://site.example") = false.
Proof. vm_compute. repeat split; reflexivity. Qed.

(** ** download_mp3 in full *)

(** X10: a resource that is not classified as HTML is saved as it was
    fetched, when it has 1000 bytes or more and the system lets the file
    be opened: under the free name picked for the sanitized last segment
    of the path of the candidate URL itself, and [download_mp3] returns
    [True]. *)
Theorem download_mp3_direct (E : Env) (mp3_url output_dir : pystr)
    (referer : option pystr) (fs : FS) (parsed_url : ParseResult)
    (response : Response) :
  first_fetch E mp3_url referer = Return (parsed_url, response) ->
  is_html response = false ->
  (1000 <= length (content response))%nat ->
  let filename := sanitize_filename (basename (path parsed_url)) in
  let filepath := (handle_duplicates fs output_dir filename).2 in
  open_wb E filepath = Return tt ->
  fs !! filepath = None
  /\ download_mp3 E mp3_url output_dir referer fs
     = (true, <[filepath := content response]> fs).
Proof.
  intros Hf Hh Hn filename filepath Ho.
  split; [apply handle_duplicates_fresh|].
  unfold download_mp3, download_mp3_try. rewrite Hf, Hh.
  by rewrite save_content_large.
Qed.

Lemma download_mp3_direct_witness :
  download_mp3 Album.env Album.track1 (py "downloads") (Some Album.seed) ∅
  = (true, <[py "downloads/track1.mp3" := Album.track1_body]> ∅).
Proof.
  edestruct (download_mp3_direct Album.env Album.track1 (py "downloads")
               (Some Album.seed) ∅) as (_ & H).
  - reflexivity.
  - vm_compute. reflexivity.
  - vm_compute. lia.
  - vm_compute. reflexivity.
  - rewrite H. vm_compute. reflexivity.
Defined.

(** X11: when the file of a wrapper's source was opened and the stream
    then breaks, [download_mp3] returns [False] and the file stays, with
    the chunks that arrived before the break: the size check and the
    removal are not reached. *)
Theorem download_mp3_broken_stream (E : Env) (mp3_url output_dir : pystr)
    (referer : option pystr) (fs : FS) (parsed_url : ParseResult)
    (response : Response) (soup : Soup) (audio_tag : AudioTag)
    (src real_mp3_url : pystr) (mp3_response : Response)
    (parsed : ParseResult) (e : exn) :
  first_fetch E mp3_url referer = Return (parsed_url, response) ->
  is_html response = true ->
  BeautifulSoup E (content response) = Return soup ->
  head (find_all_audio soup) = Some audio_tag ->
  audio_src audio_tag = Some src -> src <> [] ->
  second_fetch E mp3_url src referer
    = Return (real_mp3_url, mp3_response, parsed) ->
  iter_raises mp3_response = Some e ->
  let filename := sanitize_filename (basename (path parsed)) in
  let filepath := (handle_duplicates fs output_dir filename).2 in
  open_wb E filepath = Return tt ->
  fs !! filepath = None
  /\ download_mp3 E mp3_url output_dir referer fs
     = (false, <[filepath := concat (iter_content mp3_response)]> fs).
Proof.
  intros Hf Hh Hp Ha Hs Hne H2 Hr filename filepath Ho.
  split; [apply handle_duplicates_fresh|].
  unfold download_mp3, download_mp3_try. rewrite Hf, Hh, Hp, Ha, Hs.
  destruct src as [|c src]; [done|]. rewrite H2. unfold save_stream.
  fold filename. unfold filepath in *.
  destruct (handle_duplicates fs output_dir filename) as [name p].
  simpl in Ho. by rewrite Ho, Hr.
Qed.

Lemma download_mp3_broken_stream_witness :
  download_mp3 BrokenStream.env BrokenStream.page (py "downloads") None ∅
  = (false, <[py "downloads/live.mp3" := replicate 1200 255]> ∅).
Proof.
  edestruct (download_mp3_broken_stream BrokenStream.env BrokenStream.page
               (py "downloads") None ∅) as (_ & H).
  - reflexivity.
  - vm_compute. reflexivity.
  - reflexivity.
  - reflexivity.
  - reflexivity.
  - discriminate.
  - reflexivity.
  - reflexivity.
  - vm_compute. reflexivity.
  - rewrite H. vm_compute. reflexivity.
Defined.

Lemma legal_str_of_nat (n : nat) : legal (str_of_nat n).
Proof.
  unfold str_of_nat. generalize (Nat.to_uint n). intros d.
  induction d; simpl; [constructor|..]; by constructor.
Qed.

Lemma legal_splitext (p : pystr) :
  legal p -> legal (splitext p).1 /\ legal (splitext p).2.
Proof.
  intros H. unfold splitext. destruct (rfind Chr.dot p) as [i|];
    [|by split; [|constructor]].
  destruct (_ && _); simpl; [|by split; [|constructor]].
  split; [by apply Forall_take | by apply Forall_drop].
Qed.

Lemma legal_numbered (base ext : pystr) (n : nat) :
  legal base -> legal ext -> legal (numbered base ext n).
Proof.
  intros Hb He. unfold numbered. apply legal_app. split; [done|].
  constructor; [done|]. apply legal_app. split; [apply legal_str_of_nat | done].
Qed.

Lemma handle_duplicates_legal (fs : FS) (dir filename : pystr) :
  legal filename -> legal (handle_duplicates fs dir filename).1.
Proof.
  intros H. pose proof (handle_duplicates_spec fs dir filename) as Hs.
  destruct (handle_duplicates fs dir filename) as [name p]. simpl.
  destruct Hs as (_ & _ & [->|(_ & n & _ & -> & _)]); [done|].
  destruct (legal_splitext filename H). by apply legal_numbered.
Qed.

Lemma check_size_true (fs fs' : FS) (p : pystr) (n : nat) :
  check_size fs p n = (Return true, fs') -> fs' = fs /\ (1000 <= n)%nat.
Proof.
  unfold check_size. case_bool_decide; [done|]. intros [= <-]. split; [done|lia].
Qed.

Lemma save_content_true (E : Env) (fs fs' : FS) (output_dir filename : pystr)
    (r : Response) :
  legal filename ->
  save_content E fs output_dir filename r = (Return true, fs') ->
  exists name,
    legal name /\ fs !! path_join output_dir name = None
    /\ open_wb E (path_join output_dir name) = Return tt
    /\ fs' = <[path_join output_dir name := content r]> fs
    /\ (1000 <= length (content r))%nat.
Proof.
  intros Hl. unfold save_content.
  pose proof (handle_duplicates_spec fs output_dir filename) as Hs.
  pose proof (handle_duplicates_legal fs output_dir filename Hl) as Hn.
  destruct (handle_duplicates fs output_dir filename) as [name p].
  destruct Hs as (-> & Hfree & _). simpl in Hn.
  destruct (open_wb E (path_join output_dir name)) as [[]|e] eqn:Ho; [|done].
  intros Hr. apply check_size_true in Hr as [-> Hlen]. by exists name.
Qed.

Lemma save_stream_true (E : Env) (fs fs' : FS) (output_dir filename : pystr)
    (r : Response) :
  legal filename ->
  save_stream E fs output_dir filename r = (Return true, fs') ->
  exists name,
    legal name /\ fs !! path_join output_dir name = None
    /\ open_wb E (path_join output_dir name) = Return tt
    /\ iter_raises r = None
    /\ fs' = <[path_join output_dir name := concat (iter_content r)]> fs
    /\ (1000 <= length (concat (iter_content r)))%nat.
Proof.
  intros Hl. unfold save_stream.
  pose proof (handle_duplicates_spec fs output_dir filename) as Hs.
  pose proof (handle_duplicates_legal fs output_dir filename Hl) as Hn.
  destruct (handle_duplicates fs output_dir filename) as [name p].
  destruct Hs as (-> & Hfree & _). simpl in Hn.
  destruct (open_wb E (path_join output_dir name)) as [[]|e] eqn:Ho; [|done].
  destruct (iter_raises r) as [e|]; [done|].
  intros Hr. apply check_size_true in Hr as [-> Hlen]. by exists name.
Qed.

(** X12: a download that [download_mp3] reports as done left exactly
    one new file, of 1000 bytes or more, directly in the output directory
    under a name without any of the nine characters of line 20 (so
    without a slash); every other file is as it was. *)
Theorem download_mp3_success (E : Env) (mp3_url output_dir : pystr)
    (referer : option pystr) (fs : FS) :
  (download_mp3 E mp3_url output_dir referer fs).1 = true ->
  exists name written,
    legal name
    /\ fs !! path_join output_dir name = None
    /\ (download_mp3 E mp3_url output_dir referer fs).2
       = <[path_join output_dir name := written]> fs
    /\ (1000 <= length written)%nat.
Proof.
  unfold download_mp3, download_mp3_try.
  destruct (first_fetch E mp3_url referer) as [[parsed_url response]|e];
    [|done].
  destruct (is_html response).
  - destruct (BeautifulSoup E (content response)) as [soup|e]; [|done].
    destruct (head (find_all_audio soup)) as [audio_tag|]; [|done].
    destruct (audio_src audio_tag) as [[|c src]|]; [done| |done].
    destruct (second_fetch E mp3_url (c :: src) referer)
      as [[[real r] parsed]|e]; [|done].
    destruct (save_stream E fs output_dir _ r) as [[ok|e] fs'] eqn:Hs;
      simpl; [|done].
    intros ->.
    destruct (save_stream_true _ _ _ _ _ _ (sanitize_filename_legal _) Hs)
      as (name & Hl & Hfree & _ & _ & -> & Hlen).
    by exists name, (concat (iter_content r)).
  - destruct (save_content E fs output_dir _ response) as [[ok|e] fs'] eqn:Hs;
      simpl; [|done].
    intros ->.
    destruct (save_content_true _ _ _ _ _ _ (sanitize_filename_legal _) Hs)
      as (name & Hl & Hfree & _ & -> & Hlen).
    by exists name, (content response).
Qed.

Lemma download_mp3_success_witness :
  exists name written,
    legal name
    /\ (∅ : FS) !! path_join (py "downloads") name = None
    /\ (download_mp3 Album.env Album.track2 (py "downloads") None ∅).2
       = <[path_join (py "downloads") name := written]> ∅
    /\ (1000 <= length written)%nat.
Proof.
  apply (download_mp3_success Album.env Album.track2 (py "downloads") None ∅).
  vm_compute. reflexivity.
Defined.

(** X13: the name [download_mp3] saves under is the sanitized name when
    no file has it, and otherwise the name numbered with the least number
    from 1 on that no file has; the loop that looks for it ends. *)
Theorem handle_duplicates_first_free (fs : FS) (dir filename : pystr) :
  let candidate n :=
    numbered (splitext filename).1 (splitext filename).2 n in
  (fs !! path_join dir filename = None
   /\ handle_duplicates fs dir filename = (filename, path_join dir filename))
  \/ (is_Some (fs !! path_join dir filename)
      /\ exists n, (1 <= n)%nat
           /\ handle_duplicates fs dir filename
              = (candidate n, path_join dir (candidate n))
           /\ fs !! path_join dir (candidate n) = None
           /\ forall k, (1 <= k < n)%nat ->
                is_Some (fs !! path_join dir (candidate k))).
Proof.
  intros candidate. unfold handle_duplicates, candidate.
  destruct (path_exists fs (path_join dir filename)) eqn:He.
  - right. split; [by apply path_exists_true|].
    destruct (splitext filename) as [base ext]. cbn [fst snd].
    change (2 + size fs)%nat with (S (S (size fs))).
    rewrite while_exists_step, He.
    destruct (while_exists_first_free fs dir base ext (S (size fs)) fs 1)
      as (n & Hn & Hw & Hfree & Hbelow); [lia | done |].
    by exists n.
  - left. split; [by apply path_exists_false | done].
Qed.

Lemma rfind_from_app (c : N) (s t : pystr) (i : nat) (found : option nat) :
  rfind_from i c (s ++ t) found
  = rfind_from (i + length s) c t (rfind_from i c s found).
Proof.
  revert i found. induction s as [|x s IH]; intros i found; simpl.
  - by rewrite Nat.add_0_r.
  - rewrite IH. f_equal. lia.
Qed.

Lemma rfind_from_absent (c : N) (s : pystr) (i : nat) (found : option nat) :
  c ∉ s -> rfind_from i c s found = found.
Proof.
  revert i found. induction s as [|x s IH]; intros i found H; simpl; [done|].
  rewrite IH by (intros ?; apply H; by right).
  destruct (x =? c) eqn:E; [|done].
  apply N.eqb_eq in E as ->. destruct H. by left.
Qed.

Lemma lower_cp_dot (c : N) : lower_cp c = Chr.dot -> c = Chr.dot.
Proof.
  unfold lower_cp, Chr.dot. destruct ((65 <=? c) && (c <=? 90)) eqn:H; [|done].
  apply andb_true_iff in H as [H1 H2]. apply N.leb_le in H1, H2. lia.
Qed.

Lemma lower_cp_not_dot (c x : N) :
  lower_cp c = x -> x <> Chr.dot -> c <> Chr.dot.
Proof. intros <- H ->. by apply H. Qed.

(** A name that passes the suffix test is a stem and an extension of
    four characters, a dot and three that are not dots. *)
Lemma endswith_mp3_split (filename : pystr) :
  endswith (lower filename) dot_mp3 = true ->
  exists stem a b c,
    filename = stem ++ [Chr.dot; a; b; c]
    /\ a <> Chr.dot /\ b <> Chr.dot /\ c <> Chr.dot
    /\ lower [Chr.dot; a; b; c] = dot_mp3.
Proof.
  intros [k Hk]%endswith_suffix. unfold lower in Hk.
  apply fmap_app_inv in Hk as (stem & ext & _ & He & ->).
  destruct ext as [|d [|a [|b [|c [|]]]]]; try discriminate He.
  injection He as Hd Ha Hb Hc. symmetry in Hd. apply lower_cp_dot in Hd as ->.
  exists stem, a, b, c. split; [done|].
  split; [by eapply lower_cp_not_dot|]. split; [by eapply lower_cp_not_dot|].
  split; [by eapply lower_cp_not_dot|].
  unfold lower. simpl. by rewrite <- Ha, <- Hb, <- Hc.
Qed.

Lemma splitext_extension (stem : pystr) (a b c x : N) :
  Chr.slash ∉ stem ++ [Chr.dot; a; b; c] ->
  a <> Chr.dot -> b <> Chr.dot -> c <> Chr.dot ->
  x ∈ stem -> x <> Chr.dot ->
  splitext (stem ++ [Chr.dot; a; b; c]) = (stem, [Chr.dot; a; b; c]).
Proof.
  intros Hs Ha Hb Hc Hx Hxd. unfold splitext, rfind.
  rewrite (rfind_from_absent Chr.slash) by done.
  rewrite rfind_from_app. simpl.
  apply N.eqb_neq in Ha, Hb, Hc. rewrite Ha, Hb, Hc. simpl.
  rewrite Nat.sub_0_r, drop_0, !take_app_length, drop_app_length.
  assert (forallb (N.eqb Chr.dot) stem = false) as ->; [|done].
  apply not_true_is_false. intros Hall. rewrite forallb_forall in Hall.
  apply list_elem_of_In in Hx. apply Hall, N.eqb_eq in Hx. by apply Hxd.
Qed.

(** X14: a name changed on a collision keeps its extension, as long as
    the sanitized name has a character other than a dot before the
    extension: the number goes between the stem and the extension. *)
Theorem collision_name_keeps_extension (fs : FS) (dir s : pystr) :
  let filename := sanitize_filename s in
  (exists x, x ∈ take (length filename - 4) filename /\ x <> Chr.dot) ->
  endswith (lower (handle_duplicates fs dir filename).1) dot_mp3 = true.
Proof.
  intros filename (x & Hx & Hxd).
  pose proof (sanitize_filename_endswith s) as He. fold filename in He.
  pose proof (sanitize_filename_no_slash s) as Hs. fold filename in Hs.
  destruct (endswith_mp3_split filename He) as (stem & a & b & c & Hf & Ha & Hb
    & Hc & Hl).
  rewrite Hf in Hx, Hs. rewrite length_app in Hx. simpl in Hx.
  replace (length stem + 4 - 4)%nat with (length stem) in Hx by lia.
  rewrite take_app_length in Hx.
  pose proof (splitext_extension stem a b c x Hs Ha Hb Hc Hx Hxd) as Hsp.
  pose proof (handle_duplicates_spec fs dir filename) as Hd.
  destruct (handle_duplicates fs dir filename) as [name p]. simpl.
  destruct Hd as (_ & _ & [->|(_ & n & _ & -> & _)]); [done|].
  rewrite Hf, Hsp. simpl. unfold numbered.
  apply endswith_suffix.
  exists (lower (stem ++ Chr.underscore :: str_of_nat n)).
  rewrite <- Hl, <- lower_app, <- app_assoc. done.
Qed.

Lemma collision_name_keeps_extension_witness :
  endswith (lower (handle_duplicates
    {[ py "downloads/My Song.MP3" := [] ]} (py "downloads")
    (sanitize_filename (py "My Song.MP3"))).1) dot_mp3 = true.
Proof.
  apply collision_name_keeps_extension. exists 77. split; [|done].
  vm_compute. by left.
Defined.

(** Without a character other than a dot before the extension the
    whole name counts as the stem, and the number comes last. *)
Example collision_name_of_dots :
  sanitize_filename (py "..mp3") = py "..mp3"
  /\ handle_duplicates {[ py "downloads/..mp3" := [] ]} (py "downloads")
       (py "..mp3") = (py "..mp3_1", py "downloads/..mp3_1").
Proof. split; vm_compute; reflexivity. Qed.

(** X15: the classification of a response looks at its content type
    and at the first 100 bytes of its body, and at nothing else. *)
Theorem is_html_first_100 (r1 r2 : Response) :
  header_content_type r1 = header_content_type r2 ->
  take 100 (content r1) = take 100 (content r2) ->
  is_html r1 = is_html r2.
Proof.
  intros Hh Hc. unfold is_html.
  assert (take 15 (content r1) = take 15 (content r2)) as H15.
  { assert (forall l : bytes, take 15 l = take 15 (take 100 l)) as Ht
      by (intros l; by rewrite take_take).
    by rewrite (Ht (content r1)), (Ht (content r2)), Hc. }
  by rewrite Hh, Hc, H15.
Qed.

Lemma is_html_first_100_witness :
  is_html (res_response (media_file 200 [] (replicate 100 65 ++ py "<html>")))
  = is_html (res_response (media_file 200 [] (replicate 100 65))).
Proof. apply is_html_first_100; vm_compute; reflexivity. Defined.

(** ** main in full *)

Lemma download_new_count (E : Env) (output referer : pystr) (st : Run)
    (mp3 : pystr) :
  (downloaded_count st <= length (downloads (calls st)))%nat ->
  (downloaded_count (download_new E output referer st mp3)
   <= length (downloads (calls (download_new E output referer st mp3))))%nat.
Proof.
  intros H. unfold download_new. case_bool_decide; [done|].
  destruct (download_mp3 E mp3 output (Some referer) (files st)) as [ok fs].
  cbn [downloaded_count calls]. rewrite downloads_app, length_app. simpl.
  destruct ok; lia.
Qed.

Lemma search_page_count (E : Env) (base_domain output : pystr) (st : Run)
    (page_url : pystr) :
  (downloaded_count st <= length (downloads (calls st)))%nat ->
  (downloaded_count (search_page E base_domain output st page_url)
   <= length (downloads (calls (search_page E base_domain output st
                                  page_url))))%nat.
Proof.
  intros H. unfold search_page.
  generalize (find_real_mp3_on_page E page_url base_domain). intros mp3s.
  set (st0 := {| all_mp3s := all_mp3s st; downloaded_count := downloaded_count st;
                 files := files st; calls := calls st ++ [Extract page_url] |}).
  assert (downloaded_count st0 <= length (downloads (calls st0)))%nat as H0.
  { simpl. rewrite downloads_app, length_app. simpl. lia. }
  clearbody st0. clear H. revert st0 H0.
  induction mp3s as [|mp3 mp3s IH]; intros st0 H0; [done|].
  simpl. by apply IH, download_new_count.
Qed.

Lemma crawl_count (E : Env) (start_url base_domain output : pystr) (fs : FS) :
  (downloaded_count (crawl E start_url base_domain output fs)
   <= length (downloads (calls (crawl E start_url base_domain output fs))))%nat.
Proof.
  unfold crawl.
  set (st := search_page E base_domain output _ start_url).
  assert (downloaded_count st <= length (downloads (calls st)))%nat as H.
  { apply search_page_count. simpl. lia. }
  set (st1 := {| all_mp3s := all_mp3s st; downloaded_count := downloaded_count st;
                 files := files st; calls := calls st ++ [Discover start_url] |}).
  assert (downloaded_count st1 <= length (downloads (calls st1)))%nat as H1.
  { simpl. rewrite downloads_app, length_app. simpl. lia. }
  clearbody st1. clear H.
  generalize (take 100 (get_linked_pages E start_url base_domain)).
  intros pages. revert st1 H1.
  induction pages as [|p pages IH]; intros st1 H1; [done|].
  simpl. by apply IH, search_page_count.
Qed.

(** X16: the two numbers of the summary: the number of URLs found is
    the number of calls of [download_mp3], and the number of files reported
    as downloaded is never larger. *)
Theorem main_counts (E : Env) (line1 line2 : pystr) (fs : FS) (st : Run) :
  main E line1 line2 fs = Return st ->
  size (all_mp3s st) = length (downloads (calls st))
  /\ (downloaded_count st <= size (all_mp3s st))%nat.
Proof.
  intros (parsed & _ & _ & ->)%main_Return.
  set (st := crawl _ _ _ _ _). destruct (crawl_inv E (read_start_url line1)
    (base_domain_of parsed) (read_output line2) fs) as [Hnd Hin]. fold st in Hnd, Hin.
  assert (size (all_mp3s st) = length (downloads (calls st))) as Hsize.
  { rewrite <- (size_list_to_set (C := gset pystr) (downloads (calls st)))
      by done.
    f_equal. apply set_eq. intros u. rewrite elem_of_list_to_set.
    symmetry. apply Hin. }
  split; [done|]. rewrite Hsize. apply crawl_count.
Qed.

Lemma main_counts_witness :
  size (all_mp3s (crawl Album.env Album.seed (py "https://site.example")
                    (py "downloads") ∅))
  = length (downloads (calls (crawl Album.env Album.seed
                                (py "https://site.example") (py "downloads") ∅)))
  /\ (downloaded_count (crawl Album.env Album.seed (py "https://site.example")
                         (py "downloads") ∅)
      <= size (all_mp3s (crawl Album.env Album.seed (py "https://site.example")
                           (py "downloads") ∅)))%nat.
Proof.
  apply (main_counts Album.env (py "site.example/album") (py "") ∅).
  reflexivity.
Defined.

(** X17: in a run of [main], what was in the output directory at the
    start is there at the end with the same content, and the directory has
    gained at least as many files as are reported as downloaded. *)
Theorem main_keeps_files (E : Env) (line1 line2 : pystr) (fs : FS) (st : Run) :
  main E line1 line2 fs = Return st ->
  fs ⊆ files st /\ (size fs + downloaded_count st <= size (files st))%nat.
Proof.
  intros (parsed & _ & _ & ->)%main_Return. apply crawl_keeps_files.
Qed.

Lemma main_keeps_files_witness :
  ({[ py "downloads/track1.mp3" := Album.t2_real_body ]} : FS)
    ⊆ files (crawl Album.env Album.seed (py "https://site.example")
               (py "downloads") {[ py "downloads/track1.mp3" := Album.t2_real_body ]})
  /\ (size ({[ py "downloads/track1.mp3" := Album.t2_real_body ]} : FS)
      + downloaded_count (crawl Album.env Album.seed (py "https://site.example")
          (py "downloads") {[ py "downloads/track1.mp3" := Album.t2_real_body ]})
      <= size (files (crawl Album.env Album.seed (py "https://site.example")
          (py "downloads") {[ py "downloads/track1.mp3" := Album.t2_real_body ]})))%nat.
Proof.
  apply (main_keeps_files Album.env (py "site.example/album") (py "")).
  reflexivity.
Defined.

Lemma current_page_app (page : option pystr) (l1 l2 : list Event) :
  current_page page (l1 ++ l2) = current_page (current_page page l1) l2.
Proof. revert page. induction l1 as [|[]]; intros page; simpl; auto. Qed.

Lemma referers_ok_app (page : option pystr) (l1 l2 : list Event) :
  referers_ok page (l1 ++ l2)
  <-> referers_ok page l1 /\ referers_ok (current_page page l1) l2.
Proof.
  revert page. induction l1 as [|[] l1 IH]; intros page; simpl;
    rewrite ?IH; tauto.
Qed.

Lemma download_new_referers (E : Env) (output referer : pystr) (st : Run)
    (mp3 : pystr) :
  referers_ok None (calls st) /\ current_page None (calls st) = Some referer ->
  referers_ok None (calls (download_new E output referer st mp3))
  /\ current_page None (calls (download_new E output referer st mp3))
     = Some referer.
Proof.
  intros [Hok Hp]. unfold download_new. case_bool_decide; [done|].
  destruct (download_mp3 E mp3 output (Some referer) (files st)) as [ok fs].
  cbn [calls]. rewrite referers_ok_app, current_page_app, Hp. by simpl.
Qed.

Lemma search_page_referers (E : Env) (base_domain output : pystr) (st : Run)
    (page_url : pystr) :
  referers_ok None (calls st) ->
  referers_ok None (calls (search_page E base_domain output st page_url)).
Proof.
  intros H. unfold search_page.
  generalize (find_real_mp3_on_page E page_url base_domain). intros mp3s.
  set (st0 := {| all_mp3s := all_mp3s st; downloaded_count := downloaded_count st;
                 files := files st; calls := calls st ++ [Extract page_url] |}).
  assert (referers_ok None (calls st0)
          /\ current_page None (calls st0) = Some page_url) as H0.
  { simpl. rewrite referers_ok_app, current_page_app. by simpl. }
  clearbody st0. clear H.
  enough (referers_ok None (calls (foldl (download_new E output page_url)
            st0 mp3s))
          /\ current_page None (calls (foldl (download_new E output page_url)
               st0 mp3s)) = Some page_url) as [? _] by done.
  revert st0 H0. induction mp3s as [|mp3 mp3s IH]; intros st0 H0; [done|].
  simpl. by apply IH, download_new_referers.
Qed.

Lemma crawl_referers (E : Env) (start_url base_domain output : pystr) (fs : FS) :
  referers_ok None (calls (crawl E start_url base_domain output fs)).
Proof.
  unfold crawl.
  set (st := search_page E base_domain output _ start_url).
  assert (referers_ok None (calls st)) as H by by apply search_page_referers.
  set (st1 := {| all_mp3s := all_mp3s st; downloaded_count := downloaded_count st;
                 files := files st; calls := calls st ++ [Discover start_url] |}).
  assert (referers_ok None (calls st1)) as H1.
  { simpl. rewrite referers_ok_app. split; [done|]. by simpl. }
  clearbody st1. clear H.
  generalize (take 100 (get_linked_pages E start_url base_domain)).
  intros pages. revert st1 H1.
  induction pages as [|p pages IH]; intros st1 H1; [done|].
  simpl. by apply IH, search_page_referers.
Qed.

Lemma crawl_first_call (E : Env) (start_url base_domain output : pystr)
    (fs : FS) :
  exists rest,
    calls (crawl E start_url base_domain output fs) = Extract start_url :: rest.
Proof.
  unfold crawl.
  destruct (foldl_search_page_calls E base_domain output
    (take 100 (get_linked_pages E start_url base_domain))
    {| all_mp3s := all_mp3s (search_page E base_domain output
         {| all_mp3s := ∅; downloaded_count := 0; files := fs; calls := [] |}
         start_url);
       downloaded_count := downloaded_count (search_page E base_domain output
         {| all_mp3s := ∅; downloaded_count := 0; files := fs; calls := [] |}
         start_url);
       files := files (search_page E base_domain output
         {| all_mp3s := ∅; downloaded_count := 0; files := fs; calls := [] |}
         start_url);
       calls := calls (search_page E base_domain output
         {| all_mp3s := ∅; downloaded_count := 0; files := fs; calls := [] |}
         start_url) ++ [Discover start_url] |}) as (evs & _ & ->).
  destruct (search_page_calls E base_domain output
    {| all_mp3s := ∅; downloaded_count := 0; files := fs; calls := [] |}
    start_url) as (evs0 & _ & ->).
  simpl. by eexists.
Qed.

(** X18: the order of a run: the first call searches the start page,
    and every download is made while a page is being searched, with that
    page as its referer: the start page for what was found there, a linked
    page for what was first found on it. *)
Theorem main_referers (E : Env) (line1 line2 : pystr) (fs : FS) (st : Run) :
  main E line1 line2 fs = Return st ->
  (exists rest, calls st = Extract (read_start_url line1) :: rest)
  /\ referers_ok None (calls st).
Proof.
  intros (parsed & _ & _ & ->)%main_Return.
  split; [apply crawl_first_call | apply crawl_referers].
Qed.

Lemma main_referers_witness :
  (exists rest,
     calls (crawl Album.env Album.seed (py "https://site.example")
              (py "downloads") ∅)
     = Extract (read_start_url (py "site.example/album")) :: rest)
  /\ referers_ok None
       (calls (crawl Album.env Album.seed (py "https://site.example")
                 (py "downloads") ∅)).
Proof.
  apply (main_referers Album.env (py "site.example/album") (py "") ∅).
  reflexivity.
Defined.

Lemma last_rev (s : pystr) : last (rev s) = head s.
Proof. destruct s as [|c s]; [done|]. simpl. by rewrite last_snoc. Qed.

Lemma rstrip_chars_last (p : N -> bool) (s : pystr) (c : N) :
  last (rstrip_chars p s) = Some c -> p c = false.
Proof.
  unfold rstrip_chars. rewrite last_rev. apply drop_while_head.
Qed.

Lemma strip_idempotent (s : pystr) : strip (strip s) = strip s.
Proof.
  apply strip_id; [apply strip_head|]. intros c. apply rstrip_chars_last.
Qed.

Lemma startswith_app (s t : pystr) : startswith (s ++ t) s = true.
Proof. apply startswith_prefix. by exists t. Qed.

(** X19: the start URL that [main] works with always begins with
    [http], carries no white space at either end, and reading it again
    changes nothing: lines 245-248 add the scheme once. *)
Theorem read_start_url_normal (line : pystr) :
  startswith (read_start_url line) (py "http") = true
  /\ strip (read_start_url line) = read_start_url line
  /\ read_start_url (read_start_url line) = read_start_url line.
Proof.
  assert (startswith (read_start_url line) (py "http") = true) as Hh.
  { unfold read_start_url. destruct (startswith (strip line) (py "http")) eqn:E;
      [done|]. apply startswith_prefix. exists (py "s://" ++ strip line).
    reflexivity. }
  assert (strip (read_start_url line) = read_start_url line) as Hs.
  { unfold read_start_url. destruct (startswith (strip line) (py "http"));
      [apply strip_idempotent|].
    apply strip_id; [by intros c [= <-]|]. intros c.
    destruct (strip line) as [|x s] eqn:E; [by intros [= <-]|].
    change (py "https://" ++ x :: s) with ((py "https:/" ++ [Chr.slash]) ++ x :: s).
    rewrite <- app_assoc, last_app. simpl. rewrite last_cons.
    destruct (last s) as [y|] eqn:Hl.
    - intros [= <-]. apply (rstrip_chars_last isspace (lstrip line)).
      fold (strip line). rewrite E. simpl. rewrite last_cons. by rewrite Hl.
    - intros [= <-]. apply (rstrip_chars_last isspace (lstrip line)).
      fold (strip line). rewrite E. simpl. rewrite last_cons. by rewrite Hl. }
  split; [done|]. split; [done|].
  unfold read_start_url at 1. by rewrite Hs, Hh.
Qed.

Example read_start_url_examples :
  read_start_url (py "  site.example/album ") = py "https://site.example/album"
  /\ read_start_url (py "http://site.example") = py "http://site.example"
  /\ read_start_url (py "ftp://site.example") = py "https://ftp://site.example".
Proof. vm_compute. repeat split; reflexivity. Qed.

Lemma drop_while_removed (p : N -> bool) (s : pystr) :
  exists k, s = k ++ drop_while p s /\ Forall (fun c => p c = true) k.
Proof.
  induction s as [|c s (k & Hk & Hall)]; simpl; [by exists []|].
  destruct (p c) eqn:Hc; [|by exists []].
  exists (c :: k). split; [by rewrite Hk at 1 | by constructor].
Qed.

(** X20: what line 91 does to a match of the pattern: it removes
    quotes, commas, semicolons and closing brackets from the end and
    nothing else, and what is left does not end with one of them. *)
Theorem text_match_cleaned (m : pystr) :
  let u := rstrip_chars trailing_junk m in
  (exists removed, m = u ++ removed
     /\ Forall (fun c => trailing_junk c = true) removed)
  /\ forall c, last u = Some c -> trailing_junk c = false.
Proof.
  intros u. split; [|apply rstrip_chars_last].
  destruct (drop_while_removed trailing_junk (rev m)) as (k & Hk & Hall).
  exists (rev k). split.
  - unfold u, rstrip_chars. by rewrite <- rev_app_distr, <- Hk, rev_involutive.
  - apply Forall_forall. intros c Hc. rewrite Forall_forall in Hall.
    apply Hall. apply list_elem_of_In. apply list_elem_of_In in Hc.
    by apply in_rev.
Qed.

Lemma check_size_outcomes (fs : FS) (p : pystr) (written : bytes) :
  fs !! p = None ->
  check_size (<[p:=written]> fs) p (length written) = (Return false, fs)
  \/ ((1000 <= length written)%nat
      /\ check_size (<[p:=written]> fs) p (length written)
         = (Return true, <[p:=written]> fs)).
Proof.
  intros Hp. destruct (decide (length written < 1000)%nat).
  - left. by apply check_size_small.
  - right. split; [lia|]. apply check_size_large. lia.
Qed.

(** X21: the three ways a call of [download_mp3] can end: [False] with
    the directory as it was; [False] with one new file, the part of a
    stream that broke; [True] with one new file of 1000 bytes or more. It
    never removes or changes a file that was there, and never adds two. *)
Theorem download_mp3_outcomes (E : Env) (mp3_url output_dir : pystr)
    (referer : option pystr) (fs : FS) :
  download_mp3 E mp3_url output_dir referer fs = (false, fs)
  \/ (exists p written,
        fs !! p = None
        /\ download_mp3 E mp3_url output_dir referer fs
           = (false, <[p:=written]> fs))
  \/ (exists p written,
        fs !! p = None /\ (1000 <= length written)%nat
        /\ download_mp3 E mp3_url output_dir referer fs
           = (true, <[p:=written]> fs)).
Proof.
  set (finish := fun r : effect bool =>
         let (o, fs') := r in
         match o with Return ok => (ok, fs') | Raise _ => (false, fs') end).
  unfold download_mp3, download_mp3_try.
  destruct (first_fetch E mp3_url referer) as [[parsed_url response]|e];
    [|by left].
  destruct (is_html response).
  - destruct (BeautifulSoup E (content response)) as [soup|e]; [|by left].
    destruct (head (find_all_audio soup)) as [audio_tag|]; [|by left].
    destruct (audio_src audio_tag) as [[|c src]|]; [by left| |by left].
    destruct (second_fetch E mp3_url (c :: src) referer)
      as [[[real r] parsed]|e]; [|by left].
    unfold save_stream.
    pose proof (handle_duplicates_fresh fs output_dir
      (sanitize_filename (basename (path parsed)))) as Hfree.
    destruct (handle_duplicates fs output_dir _) as [name p]. simpl in Hfree.
    destruct (open_wb E p) as [[]|e]; [|by left].
    destruct (iter_raises r) as [e|].
    + right. left. by exists p, (concat (iter_content r)).
    + cbv zeta.
      destruct (check_size_outcomes fs p (concat (iter_content r)) Hfree)
        as [Hc|[Hn Hc]]; apply (f_equal finish) in Hc; [by left|].
      right. right. by exists p, (concat (iter_content r)).
  - unfold save_content.
    pose proof (handle_duplicates_fresh fs output_dir
      (sanitize_filename (basename (path parsed_url)))) as Hfree.
    destruct (handle_duplicates fs output_dir _) as [name p]. simpl in Hfree.
    destruct (open_wb E p) as [[]|e]; [|by left].
    cbv zeta.
    destruct (check_size_outcomes fs p (content response) Hfree)
      as [Hc|[Hn Hc]]; apply (f_equal finish) in Hc; [by left|].
    right. right. by exists p, (content response).
Qed.

Lemma get_linked_pages_elem (E : Env) (page_url base_domain u : pystr) :
  EnvOk E -> u ∈ get_linked_pages E page_url base_domain ->
  exists base_parsed parsed,
    urlparse E base_domain = Return base_parsed
    /\ urlparse E u = Return parsed
    /\ netloc parsed = netloc base_parsed.
Proof.
  intros Hok Hu. destruct (get_linked_pages_Return _ _ _ _ Hu) as (l & Hl & Hg).
  rewrite Hg in Hu. apply elem_of_list_of_set in Hu; [|done].
  unfold linked_pages_on_page in Hl.
  apply bind_Return in Hl as ([response soup] & Hf & Hl).
  apply bind_Return in Hl as (base_parsed & Hb & Hl).
  destruct (for_each_elem _ _ _ _ Hl Hu) as (href & a & Hin & Hs & Ha).
  unfold scan_link in Hs. apply bind_Return in Hs as (full_url & Hj & Hs).
  apply bind_Return in Hs as (parsed & Hp & [= <-]).
  unfold str_eqb in Ha. case_bool_decide as Hn; [|by apply elem_of_nil in Ha].
  apply list_elem_of_singleton in Ha as ->. by exists base_parsed, parsed.
Qed.

(** X22: every page that step 3 of [main] searches has the network
    location of the base domain that [main] computed from the start URL:
    the crawl does not leave the site to look for players. *)
Theorem main_stays_on_site (E : Env) (line1 line2 : pystr) (fs : FS)
    (st : Run) (page_url : pystr) :
  EnvOk E ->
  main E line1 line2 fs = Return st ->
  page_url ∈ linked_extracts (calls st) ->
  exists start_parsed base_parsed parsed,
    urlparse E (read_start_url line1) = Return start_parsed
    /\ urlparse E (base_domain_of start_parsed) = Return base_parsed
    /\ urlparse E page_url = Return parsed
    /\ netloc parsed = netloc base_parsed.
Proof.
  intros Hok (start_parsed & _ & Hp & ->)%main_Return.
  rewrite crawl_linked_extracts. intros Hin.
  assert (page_url ∈ get_linked_pages E (read_start_url line1)
            (base_domain_of start_parsed)) as Hin'.
  { by apply (subseteq_take 100) in Hin. }
  destruct (get_linked_pages_elem _ _ _ _ Hok Hin') as (b & p & Hb & Hpp & Hn).
  by exists start_parsed, b, p.
Qed.

Lemma main_stays_on_site_witness :
  exists start_parsed base_parsed parsed,
    urlparse Album.env (read_start_url (py "site.example/album"))
      = Return start_parsed
    /\ urlparse Album.env (base_domain_of start_parsed) = Return base_parsed
    /\ urlparse Album.env Album.track2 = Return parsed
    /\ netloc parsed = netloc base_parsed.
Proof.
  apply (main_stays_on_site Album.env (py "site.example/album") (py "") ∅
           (crawl Album.env Album.seed (py "https://site.example")
              (py "downloads") ∅) Album.track2 album_env_ok).
  - reflexivity.
  - vm_compute. by left.
Defined.

(** * Candidates that lead to one name *)

(** A name that [open] refuses: [download_mp3] returns [False] and
    nothing is written. *)
Example refused_name_not_saved :
  download_mp3 RefusedName.env RefusedName.page (py "downloads") None ∅
  = (false, ∅)
  /\ download_mp3 RefusedName.env RefusedName.stream (py "downloads") None ∅
     = (false, ∅)
  /\ download_mp3 RefusedName.env RefusedName.long (py "downloads") None ∅
     = (false, ∅).
Proof. vm_compute. repeat split; reflexivity. Qed.



(** X23: when [open] refuses the name chosen for a candidate whose
    fetch succeeded, the exception is caught at line 234: [download_mp3]
    returns [False] and the directory is as it was. *)
Theorem download_mp3_refused (E : Env) (mp3_url output : pystr)
    (referer : option pystr) (filename : pystr) (written : bytes) (fs : FS)
    (e : exn) :
  resolves_to E mp3_url referer filename written ->
  open_wb E (handle_duplicates fs output filename).2 = Raise e ->
  download_mp3 E mp3_url output referer fs = (false, fs).
Proof.
  intros [p resp Hf Hh -> -> Hn
         |p resp soup a src real r' p' Hf Hh Hp Ha Hs Hne H2 Hr -> -> Hn] Ho;
    unfold download_mp3, download_mp3_try; rewrite Hf, Hh.
  - by rewrite (save_content_refused _ _ _ _ _ e).
  - rewrite Hp, Ha, Hs. destruct src as [|c src]; [done|]. rewrite H2.
    by rewrite (save_stream_refused _ _ _ _ _ e).
Qed.

Lemma download_mp3_refused_witness :
  download_mp3 RefusedName.env RefusedName.page (py "downloads") None ∅
  = (false, ∅).
Proof.
  eapply (download_mp3_refused RefusedName.env RefusedName.page
            (py "downloads") None _ _ ∅ ValueError).
  - eapply resolves_wrapper;
      [ reflexivity | vm_compute; reflexivity | reflexivity | reflexivity
      | reflexivity | discriminate | reflexivity | reflexivity
      | reflexivity | reflexivity | vm_compute; lia ].
  - vm_compute. reflexivity.
Defined.









